(** * A blog pipeline: [scripts/build.js] and [src/index.ts]

    The development embeds the two programs of the repository:
    - the serving layer [src/index.ts]: the data loader [loadBlogData] and the
      three route handlers (listing, post by slug, posts by tag);
    - the build script [scripts/build.js]: the loop that turns the Markdown
      files into post records and a tag index, and the final sort.

    The ECMAScript operations the programs call ([parseInt],
    [Array.prototype.slice], [Array.prototype.find], [||], property lookup
    on an ordinary object, [String.prototype.trim], ...) are written out in
    module [JS], following the language specification.  Libraries the
    programs import (the file system, [JSON.parse], the front-matter parser,
    the Markdown renderer, [Date]) are taken as parameters. *)

From Stdlib Require Import ZArith QArith Qround Lia List String Ascii Sorted Permutation.
From stdpp Require Import gmap strings.

Local Open Scope Z_scope.

(** * ECMAScript: values, completions, and the built-ins the programs use *)
Module JS.

(** A Number is modelled by the mathematical value it denotes when that is an
    integer, or by [NaN].  The programs only do integer arithmetic on numbers
    (page numbers, array lengths, time values); beyond 2^53 a double rounds.
    As a slice bound such a number is far above any array length, where the
    rounding cannot be observed; where it would be printed (a pagination
    link) the model gives no number for it. *)
Inductive num : Type :=
| NaN
| Int (z : Z).

Definition num_sub (a b : num) : num :=
  match a, b with
  | Int x, Int y => Int (x - y)
  | _, _ => NaN
  end.

Definition num_add (a b : num) : num :=
  match a, b with
  | Int x, Int y => Int (x + y)
  | _, _ => NaN
  end.

Definition num_mul (a b : num) : num :=
  match a, b with
  | Int x, Int y => Int (x * y)
  | _, _ => NaN
  end.

(** Values as they come out of [JSON.parse] and of the YAML front-matter
    parser.  [DateObj] is a [Date] object with its time value (milliseconds
    since the epoch, [NaN] for an invalid date); [Object] lists the own
    properties of an ordinary object in insertion order. *)
#[warnings="-register-all"]
Inductive value : Type :=
| Undefined
| Null
| Bool (b : bool)
| Number (n : num)
| Str (s : string)
| DateObj (t : num)
| Array (elems : list value)
| Object (props : list (string * value)).

(** ToBoolean: the test behind [||], [&&], [?:], [if] and [!]. *)
Definition truthy (v : value) : bool :=
  match v with
  | Undefined | Null => false
  | Bool b => b
  | Number NaN => false
  | Number (Int z) => negb (z =? 0)
  | Str s => negb (String.eqb s EmptyString)
  | DateObj _ | Array _ | Object _ => true
  end.

(** [a || b] *)
Definition or_else (a b : value) : value := if truthy a then a else b.

(** Errors that the modelled code can raise. *)
Inductive Error : Type :=
| TypeError (message : string)
| RangeError (message : string)
| SyntaxError (message : string)
| SystemError (message : string).

Definition message (e : Error) : string :=
  match e with
  | TypeError m | RangeError m | SyntaxError m | SystemError m => m
  end.

(** The outcome of evaluating an expression or a function body. *)
Inductive completion (A : Type) : Type :=
| Return (a : A)
| Throw (e : Error).
Arguments Return {A} a.
Arguments Throw {A} e.

Definition bind {A B} (c : completion A) (k : A -> completion B) : completion B :=
  match c with
  | Return a => k a
  | Throw e => Throw e
  end.

(** [try { body } catch (e) { handler e }] *)
Definition try_catch {A} (body : completion A) (handler : Error -> completion A)
  : completion A :=
  match body with
  | Return a => Return a
  | Throw e => handler e
  end.

Definition is_Return {A} (c : completion A) : bool :=
  match c with
  | Return _ => true
  | Throw _ => false
  end.

Definition is_NaN (n : num) : bool :=
  match n with
  | NaN => true
  | Int _ => false
  end.

(** ** Strings

    A string is a sequence of code units; the model has the units below 256. *)
Definition code (c : ascii) : Z := Z.of_N (N_of_ascii c).

(** WhiteSpace and LineTerminator code units (TAB, LF, VT, FF, CR, SP, NBSP). *)
Definition is_StrWhiteSpaceChar (c : ascii) : bool :=
  let n := code c in
  ((9 <=? n) && (n <=? 13)) || (n =? 32) || (n =? 160).

Fixpoint trimStart (s : string) : string :=
  match s with
  | EmptyString => EmptyString
  | String c s' => if is_StrWhiteSpaceChar c then trimStart s' else s
  end.

(** [trimEnd] keeps a character when it is not white space or when something
    is left after it. *)
Fixpoint trimEnd (s : string) : string :=
  match s with
  | EmptyString => EmptyString
  | String c s' =>
      match trimEnd s' with
      | EmptyString => if is_StrWhiteSpaceChar c then EmptyString else String c EmptyString
      | r => String c r
      end
  end.

(** [String.prototype.trim] *)
Definition trim (s : string) : string := trimEnd (trimStart s).

(** [s.slice(0, n)] for [0 <= n]: the first [n] code units. *)
Fixpoint string_prefix (n : nat) (s : string) : string :=
  match n, s with
  | S n', String c s' => String c (string_prefix n' s')
  | _, _ => EmptyString
  end.

(** [s.replace(/[...]/g, "")]: drops every code unit that is in the class. *)
Fixpoint remove_chars (in_class : ascii -> bool) (s : string) : string :=
  match s with
  | EmptyString => EmptyString
  | String c s' =>
      if in_class c then remove_chars in_class s' else String c (remove_chars in_class s')
  end.

(** ** [parseInt(string)] with no radix argument *)

Definition digit_value (c : ascii) : option Z :=
  let n := code c in
  if (48 <=? n) && (n <=? 57) then Some (n - 48)
  else if (97 <=? n) && (n <=? 122) then Some (n - 87)
  else if (65 <=? n) && (n <=? 90) then Some (n - 55)
  else None.

(** The longest prefix of [s] made of radix-[R] digits, as digit values. *)
Fixpoint radix_digits (R : Z) (s : string) : list Z :=
  match s with
  | EmptyString => []
  | String c s' =>
      match digit_value c with
      | Some d => if d <? R then d :: radix_digits R s' else []
      | None => []
      end
  end.

Definition digits_value (R : Z) (ds : list Z) : Z :=
  fold_left (fun acc d => acc * R + d) ds 0.

Definition parseInt (inputString : string) : num :=
  let str := trimStart inputString in
  let '(sign, str) :=
    match str with
    | String "-" rest => (-1, rest)
    | String "+" rest => (1, rest)
    | _ => (1, str)
    end in
  let '(R, str) :=
    match str with
    | String "0" (String "x" rest) => (16, rest)
    | String "0" (String "X" rest) => (16, rest)
    | _ => (10, str)
    end in
  match radix_digits R str with
  | [] => NaN
  | ds => Int (sign * digits_value R ds)
  end.

(** ** Arrays *)

(** ToIntegerOrInfinity on the numbers of the model. *)
Definition ToIntegerOrInfinity (n : num) : Z :=
  match n with
  | NaN => 0
  | Int z => z
  end.

(** A relative index of [slice]: negative counts from the end, and the
    result is clamped to [0 .. len]. *)
Definition relative_index (len : Z) (n : num) : Z :=
  let r := ToIntegerOrInfinity n in
  if r <? 0 then Z.max (len + r) 0 else Z.min r len.

(** [Array.prototype.slice(start, end)] *)
Definition slice {A} (l : list A) (start end_ : num) : list A :=
  let len := Z.of_nat (length l) in
  let k := relative_index len start in
  let final := relative_index len end_ in
  let count := Z.max (final - k) 0 in
  firstn (Z.to_nat count) (skipn (Z.to_nat k) l).

(** [Array.prototype.find(predicate)]: the first element that satisfies the
    predicate, [None] standing for [undefined]. *)
Definition find {A} (p : A -> bool) (l : list A) : option A := List.find p l.

(** [l.map(f).filter(Boolean)] where [f] yields an object or [undefined]. *)
Definition map_filter_Boolean {A B} (f : A -> option B) (l : list A) : list B :=
  omap f l.

(** [Array.prototype.sort(comparefn)] for a comparator that returns an
    integer.  The sort is stable: of two elements that the comparator does not
    order strictly, the one that came first stays first.  [insert_sorted]
    puts [x], which came before every element of [l], in front of the first
    element it does not have to follow. *)
Fixpoint insert_sorted {A} (comparefn : A -> A -> Z) (x : A) (l : list A) : list A :=
  match l with
  | [] => [x]
  | y :: l' => if comparefn x y <=? 0 then x :: l else y :: insert_sorted comparefn x l'
  end.

Definition sort {A} (comparefn : A -> A -> Z) (l : list A) : list A :=
  foldr (insert_sorted comparefn) [] l.

(** [for (const x of l) { st = body(i, x, st) }], where [i] counts the
    iterations; an exception leaves the loop. *)
Fixpoint for_of {A St} (body : nat -> A -> St -> completion St)
    (i : nat) (l : list A) (st : St) : completion St :=
  match l with
  | [] => Return st
  | x :: l' =>
      match body i x st with
      | Return st' => for_of body (S i) l' st'
      | Throw e => Throw e
      end
  end.

(** [Math.ceil(a / b)] for integers [a] and [b]. *)
Definition Math_ceil (q : Q) : Z := Qceiling q.
Definition div (a b : Z) : Q := (inject_Z a / inject_Z b)%Q.

(** ** Property lookup on an ordinary object

    [own_property] reads an own property from the list of them; [get_own] is
    [obj.key] for a key that [Object.prototype] does not have. *)
Definition own_property (props : list (string * value)) (key : string) : option value :=
  snd <$> List.find (fun kv => String.eqb (fst kv) key) props.

Definition get_own (props : list (string * value)) (key : string) : value :=
  default Undefined (own_property props key).

(** [obj[key]] first looks at the own properties of [obj] and then at
    [Object.prototype], whose properties every object literal and every
    object made by [JSON.parse] inherits. *)
Definition Object_prototype_properties : list string :=
  [ "constructor"; "__defineGetter__"; "__defineSetter__"; "hasOwnProperty";
    "__lookupGetter__"; "__lookupSetter__"; "isPrototypeOf";
    "propertyIsEnumerable"; "toString"; "valueOf"; "__proto__";
    "toLocaleString" ]%string.

Definition in_Object_prototype (key : string) : bool :=
  existsb (String.eqb key) Object_prototype_properties.

(** What [obj[key]] evaluates to, for an object whose own properties all hold
    values of type [A]: an own value, a member inherited from
    [Object.prototype] (a function, or for [__proto__] the prototype object:
    truthy, and not an array), or [undefined]. *)
Inductive lookup_result (A : Type) : Type :=
| Own (a : A)
| Inherited
| Missing.
Arguments Own {A} a.
Arguments Inherited {A}.
Arguments Missing {A}.

Definition Get {A} (own : gmap string A) (key : string) : lookup_result A :=
  match own !! key with
  | Some a => Own a
  | None => if in_Object_prototype key then Inherited else Missing
  end.

(** ** Comparing numbers: a comparison with [NaN] is false *)
Definition num_gt (a b : num) : bool :=
  match a, b with
  | Int x, Int y => y <? x
  | _, _ => false
  end.

Definition num_lt (a b : num) : bool :=
  match a, b with
  | Int x, Int y => x <? y
  | _, _ => false
  end.

(** ** [Number::toString], as a template literal applies it to a number *)

Definition digit_char (d : Z) : ascii := ascii_of_N (Z.to_N (48 + d)).

(** The decimal digits of [n >= 0], most significant first, in front of
    [acc]; [fuel] bounds the number of digits. *)
Fixpoint decimal_digits (fuel : nat) (n : Z) (acc : list Z) : list Z :=
  match fuel with
  | O => acc
  | S fuel' =>
      if n <? 10 then n :: acc
      else decimal_digits fuel' (n / 10) (n mod 10 :: acc)
  end.

Definition string_of_digits (ds : list Z) : string :=
  fold_right (fun d s => String (digit_char d) s) EmptyString ds.

(** The decimal numeral of [n >= 0]. *)
Definition decimal (n : Z) : string :=
  string_of_digits (decimal_digits (S (Z.to_nat (Z.log2 n))) n []).


End JS.

Notation "'let*' x ':=' c 'in' k" := (JS.bind c (fun x => k))
  (at level 10, x name, c at level 100, k at level 200).

(** * [src/index.ts]: the serving layer *)
Module Index.
Import JS.

(** ** The data model: [interface Post] and [interface BlogData] *)
Module Post.
Record t : Type := mk {
  slug : string;
  title : string;
  date : string;
  updated : option string;     (* string | null *)
  tags : list string;
  excerpt : string;
  content : string
}.
End Post.

Module BlogData.
Record t : Type := mk {
  posts : list Post.t;
  tags : gmap string (list string);   (* Record<string, string[]> *)
  generatedAt : string
}.
End BlogData.

(** ** Reading a value at the declared types

    [loadBlogData] is declared to return a [BlogData], but one of its
    branches returns whatever [JSON.parse] yields.  A value is usable as a
    [BlogData] when it has the shape the interfaces declare; the functions
    below read it at that shape. *)
Definition as_string (v : value) : option string :=
  match v with
  | Str s => Some s
  | _ => None
  end.

Definition as_string_or_null (v : value) : option (option string) :=
  match v with
  | Str s => Some (Some s)
  | Null => Some None
  | _ => None
  end.

Definition as_string_array (v : value) : option (list string) :=
  match v with
  | Array elems => mapM as_string elems
  | _ => None
  end.

Definition as_Post (v : value) : option Post.t :=
  match v with
  | Object props =>
      slug ← own_property props "slug" ≫= as_string;
      title ← own_property props "title" ≫= as_string;
      date ← own_property props "date" ≫= as_string;
      updated ← own_property props "updated" ≫= as_string_or_null;
      tags ← own_property props "tags" ≫= as_string_array;
      excerpt ← own_property props "excerpt" ≫= as_string;
      content ← own_property props "content" ≫= as_string;
      Some (Post.mk slug title date updated tags excerpt content)
  | _ => None
  end.

Definition as_tag_index (v : value) : option (gmap string (list string)) :=
  match v with
  | Object props =>
      entries ← mapM (fun kv : string * value =>
                        slugs ← as_string_array (snd kv); Some (fst kv, slugs)) props;
      Some (list_to_map entries)
  | _ => None
  end.

Definition as_BlogData (v : value) : option BlogData.t :=
  match v with
  | Object props =>
      posts ← own_property props "posts" ≫= (fun a =>
                 match a with
                 | Array elems => mapM as_Post elems
                 | _ => None
                 end);
      tags ← own_property props "tags" ≫= as_tag_index;
      generatedAt ← own_property props "generatedAt" ≫= as_string;
      Some (BlogData.mk posts tags generatedAt)
  | _ => None
  end.

(** A value that can be used wherever the handlers expect a [BlogData]. *)
Definition usable (v : value) : Prop := is_Some (as_BlogData v).

(** ** The runtime the module is loaded in *)

(** [process], where it exists: [process.versions.node] and
    [process.env.NODE_ENV]. *)
Record Process : Type := {
  versions_node : option string;
  NODE_ENV : option string
}.

(** The members of the [fs] module that the loader calls. *)
Record FsModule : Type := {
  existsSync : string -> bool;
  readFileSync : string -> completion string
}.

(** The members of the [path] module that the loader calls. *)
Record PathModule : Type := {
  resolve : string -> string -> string;
  join : string -> string -> string -> string
}.

(** The state a call of [loadBlogData] runs in: the global [process], the
    module variables [fs], [path] and [__dirname] as the dynamic imports left
    them, [JSON.parse], and the two readings of the clock taken when
    [SAMPLE_BLOG_DATA] was evaluated. *)
Record Context : Type := {
  process : option Process;
  fs : option FsModule;
  path : option PathModule;
  __dirname : string;
  JSON_parse : string -> completion value;
  sample_date : string;
  sample_generatedAt : string
}.

(** [typeof process !== "undefined" && process.versions && process.versions.node] *)
Definition isNodeJS (ctx : Context) : bool :=
  match process ctx with
  | None => false
  | Some p =>
      match versions_node p with
      | Some v => truthy (Str v)
      | None => false
      end
  end.

(** [process.env.NODE_ENV === "development"], evaluated only when [isNodeJS]. *)
Definition is_development (ctx : Context) : bool :=
  match process ctx with
  | Some p =>
      match NODE_ENV p with
      | Some e => String.eqb e "development"
      | None => false
      end
  | None => false
  end.

Definition SAMPLE_BLOG_DATA (ctx : Context) : value :=
  Object
    [ ("posts",
       Array
         [ Object
             [ ("slug", Str "hello-world");
               ("title", Str "Hello World");
               ("date", Str (sample_date ctx));
               ("updated", Null);
               ("tags", Array [Str "Sample"]);
               ("excerpt", Str "This is a sample post.");
               ("content",
                Str "<h1>Hello World</h1><p>This is a sample post. In a real build, HTML generated from Markdown files would be displayed here.</p>") ] ]);
      ("tags", Object [ ("Sample", Array [Str "hello-world"]) ]);
      ("generatedAt", Str (sample_generatedAt ctx)) ].

(** [SAMPLE_BLOG_DATA] read at the type it is declared with. *)
Definition sample (ctx : Context) : BlogData.t :=
  BlogData.mk
    [ Post.mk "hello-world" "Hello World" (sample_date ctx) None ["Sample"]
        "This is a sample post."
        "<h1>Hello World</h1><p>This is a sample post. In a real build, HTML generated from Markdown files would be displayed here.</p>" ]
    {[ "Sample" := ["hello-world"] ]}
    (sample_generatedAt ctx).

(** ** [loadBlogData] *)

(** [path.join(path.resolve(__dirname, ".."), "dist", "blog-data.json")] *)
Definition artifact_path (ctx : Context) (path : PathModule) : string :=
  join path (resolve path (__dirname ctx) "..") "dist" "blog-data.json".

Definition loadBlogData (ctx : Context) : completion value :=
  try_catch
    (if isNodeJS ctx && is_development ctx && bool_decide (is_Some (fs ctx)) then
       try_catch
         (match fs ctx, path ctx with
          | Some fs, Some path =>
              let filePath := artifact_path ctx path in
              if negb (existsSync fs filePath) then Return (SAMPLE_BLOG_DATA ctx)
              else
                let* fileContent := readFileSync fs filePath in
                JSON_parse ctx fileContent
          | _, _ => Return (SAMPLE_BLOG_DATA ctx)
          end)
         (fun fsError => Return (SAMPLE_BLOG_DATA ctx))
     else
       try_catch
         (Return (SAMPLE_BLOG_DATA ctx))
         (fun fetchError => Return (SAMPLE_BLOG_DATA ctx)))
    (fun error => Return (SAMPLE_BLOG_DATA ctx)).

(** ** Requests and responses

    A response is a status code and the page that was rendered.  A page is
    recorded here by the template that was chosen and the data interpolated
    into it; [renderLayout] and the markup around the data are not modelled. *)
Inductive Page : Type :=
| Listing (blogTitle : string) (paginatedPosts : list Post.t) (page : num) (totalPages : Z)
| PostNotFound (blogTitle : string)
| PostDetail (blogTitle : string) (post : Post.t)
| TagListing (blogTitle : string) (tag : string) (taggedPosts : list Post.t)
| ErrorPage (heading : string) (details : string).

Record Response : Type := {
  status : Z;
  body : Page
}.

(** [c.html(page)] and [c.html(page, status)] *)
Definition html (p : Page) : Response := {| status := 200; body := p |}.
Definition html_status (p : Page) (st : Z) : Response := {| status := st; body := p |}.

(** What a handler reads from the Hono context [c]: the [page] query
    parameter, the route parameter, and the [BLOG_TITLE] binding. *)
Record Request : Type := {
  query_page : option string;    (* c.req.query("page") *)
  param : string;                (* c.req.param("slug") or c.req.param("tag") *)
  BLOG_TITLE : option string     (* c.env.BLOG_TITLE *)
}.

(** [x || fallback] for [x : string | undefined] *)
Definition string_or (x : option string) (fallback : string) : string :=
  match x with
  | Some s => if truthy (Str s) then s else fallback
  | None => fallback
  end.

(** [c.env.BLOG_TITLE || "Tech Blog"] *)
Definition blogTitle_of (c : Request) : string := string_or (BLOG_TITLE c) "Tech Blog".

Definition perPage : Z := 10.

(** [start] and [end] of the listing for a page number:
    [(page - 1) * perPage] and [start + perPage]. *)
Definition page_bounds (page : num) : num * num :=
  let start := num_mul (num_sub page (Int 1)) (Int perPage) in
  let end_ := num_add start (Int perPage) in
  (start, end_).

(** In the three handlers [blogData] is the value awaited from
    [loadBlogData], at the type the source declares for it. *)

(** [app.get("/", ...)]: the paginated listing. *)
Definition route_home (blogData : BlogData.t) (c : Request) : completion Response :=
  try_catch
    (let posts := BlogData.posts blogData in
     let blogTitle := blogTitle_of c in
     let page := parseInt (string_or (query_page c) "1") in
     let '(start, end_) := page_bounds page in
     let paginatedPosts := slice posts start end_ in
     let totalPages := Math_ceil (div (Z.of_nat (length posts)) perPage) in
     Return (html (Listing blogTitle paginatedPosts page totalPages)))
    (fun error =>
       Return (html_status
                 (ErrorPage "An error occurred while loading blog data." (message error))
                 500)).

(** [app.get("/:slug", ...)]: one post. *)
Definition route_slug (blogData : BlogData.t) (c : Request) : completion Response :=
  try_catch
    (let slug := param c in
     let post := find (fun p => String.eqb (Post.slug p) slug) (BlogData.posts blogData) in
     let blogTitle := blogTitle_of c in
     match post with
     | None => Return (html_status (PostNotFound blogTitle) 404)
     | Some post => Return (html (PostDetail blogTitle post))
     end)
    (fun error =>
       Return (html_status
                 (ErrorPage "An error occurred while loading the post." (message error))
                 500)).

(** [app.get("/tag/:tag", ...)]: the posts under a tag.
    [blogData.tags[tag] || []] is an own entry of the index, or the empty
    array when the lookup gives [undefined]; a member inherited from
    [Object.prototype] is truthy, so it is kept, and calling [.map] on it
    raises a [TypeError]. *)
Definition route_tag (blogData : BlogData.t) (c : Request) : completion Response :=
  try_catch
    (let tag := param c in
     let blogTitle := blogTitle_of c in
     let* taggedSlugs :=
       match Get (BlogData.tags blogData) tag with
       | Own slugs => Return slugs
       | Missing => Return []
       | Inherited => Throw (TypeError "taggedSlugs.map is not a function")
       end in
     let taggedPosts :=
       map_filter_Boolean
         (fun slug => find (fun post => String.eqb (Post.slug post) slug)
                        (BlogData.posts blogData))
         taggedSlugs in
     Return (html (TagListing blogTitle tag taggedPosts)))
    (fun error =>
       Return (html_status
                 (ErrorPage "An error occurred while loading tag data." (message error))
                 500)).

(** ** The raw artifact endpoint *)

(** [c.json(payload)] *)
Record JsonResponse : Type := {
  json_status : Z;
  payload : value
}.

Definition json (v : value) : JsonResponse := {| json_status := 200; payload := v |}.

(** [app.get("/blog-data.json", ...)].  Unlike [loadBlogData] the handler
    does not test [path] before it calls [path.resolve]; with [path] still
    [undefined] the call raises a [TypeError] inside the inner [try]. *)
Definition route_blog_data_json (ctx : Context) : completion JsonResponse :=
  try_catch
    (if isNodeJS ctx && is_development ctx && bool_decide (is_Some (fs ctx)) then
       try_catch
         (match fs ctx with
          | Some fs =>
              let* path :=
                match path ctx with
                | Some path => Return path
                | None =>
                    Throw (TypeError "Cannot read properties of undefined (reading 'resolve')")
                end in
              let filePath := artifact_path ctx path in
              if negb (existsSync fs filePath) then Return (json (SAMPLE_BLOG_DATA ctx))
              else
                let* fileContent := readFileSync fs filePath in
                let* parsed := JSON_parse ctx fileContent in
                Return (json parsed)
          | None => Return (json (SAMPLE_BLOG_DATA ctx))
          end)
         (fun fsError => Return (json (SAMPLE_BLOG_DATA ctx)))
     else Return (json (SAMPLE_BLOG_DATA ctx)))
    (fun error => Return (json (SAMPLE_BLOG_DATA ctx))).

(** ** The pagination block of the listing template

    The block is rendered when [totalPages > 1]; in it the link to the
    previous page when [page > 1] and the link to the next page when
    [page < totalPages].  A link is recorded by the number interpolated into
    its [href], [page - 1] or [page + 1]. *)

(** The number [page + delta] for [delta] one of [-1] and [1].  The source
    computes it on doubles: it is the exact integer while [page] is a safe
    integer ([|page| < 2^53]).  For a larger [page] the double result may be
    rounded; the model does not represent it and records [Inexact]. *)
Inductive link_number : Type :=
| Exactly (n : num)
| Inexact.

Definition page_step (page : num) (delta : Z) : link_number :=
  match page with
  | NaN => Exactly NaN
  | Int z => if Z.abs z <? 2 ^ 53 then Exactly (Int (z + delta)) else Inexact
  end.

Record Pagination : Type := {
  prev_link : option link_number;
  next_link : option link_number
}.

Definition pagination_controls (page : num) (totalPages : Z) : option Pagination :=
  if 1 <? totalPages then
    Some {| prev_link := if num_gt page (Int 1) then Some (page_step page (-1)) else None;
            next_link := if num_lt page (Int totalPages)
                         then Some (page_step page 1) else None |}
  else None.

(** The posts that a response of the listing route shows. *)
Definition listed_posts (r : completion Response) : list Post.t :=
  match r with
  | Return {| body := Listing _ paginatedPosts _ _ |} => paginatedPosts
  | _ => []
  end.

End Index.

(** * [scripts/build.js]: the build script *)
Module Build.
Import JS.

(** What [matter(fileContent)] returns: the front-matter mapping [data] (the
    own properties of the object the YAML parser built) and the body. *)
Record GrayMatterFile : Type := {
  data : list (string * value);
  content : string
}.

(** The libraries and the environment the script runs against.
    - [readFileSync path] is [fs.readFileSync(path, "utf-8")];
    - [matter] is the front-matter parser, which raises on a malformed block;
    - [marked] is the Markdown renderer;
    - [basename] is [path.basename];
    - [newDate v] is the time value of [new Date(v)], [NaN] for an invalid date;
    - [ToString] is the conversion of a value that is not a string to a
      property key;
    - [now i] is the time value of [new Date()] during iteration [i] of the
      loop, and [generated] the one read for [generatedAt]. *)
Record Collaborators : Type := {
  readFileSync : string -> completion string;
  matter : string -> completion GrayMatterFile;
  marked : string -> completion string;
  basename : string -> string -> string;
  newDate : value -> num;
  ToString : value -> string;
  now : nat -> Z;
  generated : Z
}.

(** A string made by [Date.prototype.toISOString].  Such a string is fixed by
    the time value it prints and [new Date] reads the time value back from
    it, so it is kept as the time value, in milliseconds. *)
Definition ISOString : Type := Z.

(** [d.toISOString()], for [d] with time value [t] *)
Definition toISOString (t : num) : completion ISOString :=
  match t with
  | NaN => Throw (RangeError "Invalid time value")
  | Int z => Return z
  end.

(** The object literal [postData]. *)
Record PostData : Type := {
  slug : value;
  title : value;
  date : ISOString;
  updated : option ISOString;     (* ISO string or null *)
  tags : list value;
  excerpt : value;
  html : string                   (* the property [content] *)
}.

Record OutputData : Type := {
  posts : list PostData;
  tag_index : gmap string (list value);    (* the property [tags] *)
  generatedAt : ISOString
}.

(** The character class [[#*`]]. *)
Definition is_markup (c : ascii) : bool :=
  let n := code c in (n =? 35) || (n =? 42) || (n =? 96).

(** [content.slice(0, 150).replace(/[#*`]/g, "").trim() + "..."] *)
Definition auto_excerpt (content : string) : string :=
  trim (remove_chars is_markup (string_prefix 150 content)) +:+ "...".

(** [data.excerpt || content.slice(0, 150)...] *)
Definition excerpt_of (file : GrayMatterFile) : value :=
  or_else (get_own (data file) "excerpt") (Str (auto_excerpt (content file))).

Section Script.
Variable lib : Collaborators.

(** The key that [tagMap[tag]] reads and writes. *)
Definition ToPropertyKey (tag : value) : string :=
  match tag with
  | Str s => s
  | v => ToString lib v
  end.

(** The body of [postData.tags.forEach]: on [undefined] the entry is created
    and the slug pushed; on an own entry the slug is pushed; a member
    inherited from [Object.prototype] is truthy and has no [push]. *)
Definition add_tag (slug : value) (tagMap : gmap string (list value)) (tag : value)
  : completion (gmap string (list value)) :=
  let key := ToPropertyKey tag in
  match Get tagMap key with
  | Missing => Return (<[key := [slug]]> tagMap)
  | Own slugs => Return (<[key := slugs ++ [slug]]> tagMap)
  | Inherited => Throw (TypeError "tagMap[tag].push is not a function")
  end.

Fixpoint add_tags (slug : value) (tagMap : gmap string (list value)) (tags : list value)
  : completion (gmap string (list value)) :=
  match tags with
  | [] => Return tagMap
  | tag :: rest =>
      let* tagMap' := add_tag slug tagMap tag in
      add_tags slug tagMap' rest
  end.

(** The statements of the loop body up to and including the object literal. *)
Definition make_postData (i : nat) (filePath : string) (file : GrayMatterFile)
  : completion PostData :=
  let fileName := basename lib filePath ".md" in
  let slug := or_else (get_own (data file) "slug") (Str fileName) in
  let* htmlContent := marked lib (content file) in
  let* date :=
    if truthy (get_own (data file) "date")
    then toISOString (newDate lib (get_own (data file) "date"))
    else toISOString (Int (now lib i)) in
  let* updated :=
    if truthy (get_own (data file) "updated")
    then let* u := toISOString (newDate lib (get_own (data file) "updated")) in Return (Some u)
    else Return None in
  Return {|
    slug := slug;
    title := or_else (get_own (data file) "title") (Str "Untitled");
    date := date;
    updated := updated;
    tags := match get_own (data file) "tags" with
            | Array elems => elems
            | _ => []
            end;
    excerpt := excerpt_of file;
    html := htmlContent
  |}.

(** The state the loop updates: [postsData] and [tagMap]. *)
Definition State : Type := (list PostData * gmap string (list value))%type.

Definition loop_body (i : nat) (filePath : string) (st : State) : completion State :=
  let '(postsData, tagMap) := st in
  let* fileContent := readFileSync lib filePath in
  let* file := matter lib fileContent in
  let* postData := make_postData i filePath file in
  let* tagMap' := add_tags (slug postData) tagMap (tags postData) in
  Return (postsData ++ [postData], tagMap').

(** [(a, b) => new Date(b.date) - new Date(a.date)] *)
Definition by_date_desc (a b : PostData) : Z := date b - date a.

(** The script from the loop on; [mdFiles] is what [glob] returned.  The
    value is [outputData], which the script then serialises to
    [dist/blog-data.json]. *)
Definition build (mdFiles : list string) : completion OutputData :=
  let* st := for_of loop_body 0%nat mdFiles ([], ∅) in
  let '(postsData, tagMap) := st in
  Return {|
    posts := sort by_date_desc postsData;
    tag_index := tagMap;
    generatedAt := generated lib
  |}.

(** A document the loop body gets through: it renders, the dates it gives
    are valid, and none of its tags names a member of [Object.prototype]. *)
Definition valid_file (file : GrayMatterFile) : bool :=
  is_Return (marked lib (content file)) &&
  (if truthy (get_own (data file) "date")
   then negb (is_NaN (newDate lib (get_own (data file) "date"))) else true) &&
  (if truthy (get_own (data file) "updated")
   then negb (is_NaN (newDate lib (get_own (data file) "updated"))) else true) &&
  match get_own (data file) "tags" with
  | Array elems => forallb (fun tag => negb (in_Object_prototype (ToPropertyKey tag))) elems
  | _ => true
  end.

(** A path that can be read and whose text has front matter that parses to a
    valid document. *)
Definition valid_document (filePath : string) : bool :=
  match readFileSync lib filePath with
  | Return fileContent =>
      match matter lib fileContent with
      | Return file => valid_file file
      | Throw _ => false
      end
  | Throw _ => false
  end.

Definition valid_content_directory (mdFiles : list string) : bool :=
  forallb valid_document mdFiles.

(** Later posts are not newer. *)
Definition not_newer (a b : PostData) : Prop := date b <= date a.

(** An index none of whose own keys names a member of [Object.prototype]. *)
Definition plain_keys (tagMap : gmap string (list value)) : Prop :=
  forall key, is_Some (tagMap !! key) -> in_Object_prototype key = false.

(** [postData] is the record that the loop body makes of the document at
    [filePath]. *)
Definition built_from (filePath : string) (postData : PostData) : Prop :=
  exists i fileContent file,
    readFileSync lib filePath = Return fileContent /\
    matter lib fileContent = Return file /\
    make_postData i filePath file = Return postData.

(** The record comes from a document of the directory. *)
Definition from_document (mdFiles : list string) (postData : PostData) : Prop :=
  exists filePath, filePath ∈ mdFiles /\ built_from filePath postData.

(** What the loop maintains: each record comes from a document, and the
    index lists the slug of each record under each of the record's tags. *)
Definition loop_invariant (mdFiles : list string) (st : State) : Prop :=
  (forall p, p ∈ st.1 -> from_document mdFiles p) /\
  (forall p tag, p ∈ st.1 -> tag ∈ tags p ->
     exists slugs, st.2 !! ToPropertyKey tag = Some slugs /\ slug p ∈ slugs).

(** The slugs that the records list under a key, in the order of the records:
    the slug of a record once for each of the record's tags with that key. *)
Definition slugs_under (key : string) (records : list PostData) : list value :=
  records ≫= (fun p =>
    (fun _ => slug p) <$> List.filter (fun tag => String.eqb (ToPropertyKey tag) key) (tags p)).

(** The entry of the index under a key, for these records. *)
Definition index_entry (key : string) (records : list PostData) : option (list value) :=
  match slugs_under key records with
  | [] => None
  | slugs => Some slugs
  end.

End Script.

(** The code units of a string. *)
Definition chars (s : string) : list ascii := list_ascii_of_string s.

(** A string that does not begin with white space. *)
Definition starts_clean (s : string) : Prop :=
  match s with
  | EmptyString => True
  | String c _ => is_StrWhiteSpaceChar c = false
  end.

End Build.

(** * Concrete environments

    Small environments on which the programs are run in the examples below.
    The library functions in them are stand-ins that agree with the real
    ones on the inputs used. *)
Module Scenario.
Import JS.

Definition lookup_table {A} (table : list (string * A)) (key : string) : option A :=
  snd <$> List.find (fun kv => String.eqb (fst kv) key) table.

(** ** A development checkout whose artifact file holds the text [null] *)

(** [JSON.parse] on the text [null]: the value [null]. *)
Definition JSON_parse_null (text : string) : completion value :=
  if String.eqb text "null" then Return Null
  else Throw (SyntaxError "Unexpected token in JSON").

Definition node_development : Index.Process :=
  {| Index.versions_node := Some "18.19.0"; Index.NODE_ENV := Some "development" |}.

Definition null_artifact_context : Index.Context :=
  {| Index.process := Some node_development;
     Index.fs := Some {| Index.existsSync := fun p => String.eqb p "/srv/blog/dist/blog-data.json";
                         Index.readFileSync := fun p =>
                           if String.eqb p "/srv/blog/dist/blog-data.json" then Return "null"
                           else Throw (SystemError "ENOENT: no such file or directory") |};
     Index.path := Some {| Index.resolve := fun _ _ => "/srv/blog";
                           Index.join := fun a b c => a +:+ "/" +:+ b +:+ "/" +:+ c |};
     Index.__dirname := "/srv/blog/src";
     Index.JSON_parse := JSON_parse_null;
     Index.sample_date := "2026-01-01T00:00:00.000Z";
     Index.sample_generatedAt := "2026-01-01T00:00:00.000Z" |}.

(** A Workers runtime: no [process], nothing imported. *)
Definition workers_context : Index.Context :=
  {| Index.process := None;
     Index.fs := None;
     Index.path := None;
     Index.__dirname := ".";
     Index.JSON_parse := JSON_parse_null;
     Index.sample_date := "2026-01-01T00:00:00.000Z";
     Index.sample_generatedAt := "2026-01-01T00:00:00.001Z" |}.

(** The post of the sample artifact in [workers_context]. *)
Definition hello_world : Index.Post.t :=
  Index.Post.mk "hello-world" "Hello World" "2026-01-01T00:00:00.000Z" None ["Sample"]
    "This is a sample post."
    "<h1>Hello World</h1><p>This is a sample post. In a real build, HTML generated from Markdown files would be displayed here.</p>".

Definition request (page : option string) (param : string) : Index.Request :=
  {| Index.query_page := page; Index.param := param; Index.BLOG_TITLE := None |}.

(** ** A content directory with two documents *)

(** [path.basename(p, ext)] for a path that names a file ending in [ext]. *)
Fixpoint last_segment (acc s : string) : string :=
  match s with
  | EmptyString => acc
  | String c s' =>
      if Ascii.eqb c "/" then last_segment EmptyString s'
      else last_segment (acc +:+ String c EmptyString) s'
  end.

Fixpoint strip_suffix (ext s : string) : string :=
  match s with
  | EmptyString => EmptyString
  | String c s' =>
      if String.eqb s' ext then String c EmptyString else String c (strip_suffix ext s')
  end.

Definition posix_basename (p ext : string) : string :=
  strip_suffix ext (last_segment EmptyString p).

(** Collaborators given by tables: [disk] maps a path to the text of the
    file, [parsed] maps a text to what the front-matter parser makes of it.
    Dates are built from [Date] objects and numbers only, and [ToString] is
    never reached because all tags are strings. *)
Definition collaborators (disk : list (string * string))
    (parsed : list (string * completion Build.GrayMatterFile)) : Build.Collaborators :=
  {| Build.readFileSync := fun p =>
       match lookup_table disk p with
       | Some text => Return text
       | None => Throw (SystemError "ENOENT: no such file or directory")
       end;
     Build.matter := fun text =>
       match lookup_table parsed text with
       | Some r => r
       | None => Return {| Build.data := []; Build.content := text |}
       end;
     Build.marked := fun body => Return ("<p>" +:+ body +:+ "</p>");
     Build.basename := posix_basename;
     Build.newDate := fun v =>
       match v with
       | DateObj t => t
       | Number n => n
       | _ => NaN
       end;
     Build.ToString := fun _ => "[object Object]";
     Build.now := fun i => 1750000000000 + Z.of_nat i;
     Build.generated := 1750000000999 |}.

Definition january_text : string := "--- title: January date: 2024-01-01 tags: [Go] --- first".
Definition february_text : string :=
  "--- title: February date: 2024-02-01 tags: [Go] excerpt: '' --- # second *post* ".

Definition january : Build.GrayMatterFile :=
  {| Build.data := [ ("title", Str "January");
                     ("date", DateObj (Int 1704067200000));
                     ("tags", Array [Str "Go"]) ];
     Build.content := " first" |}.

(** The February document gives an explicit, empty excerpt. *)
Definition february : Build.GrayMatterFile :=
  {| Build.data := [ ("title", Str "February");
                     ("date", DateObj (Int 1706745600000));
                     ("tags", Array [Str "Go"]);
                     ("excerpt", Str "") ];
     Build.content := " # second *post* " |}.

Definition two_documents : Build.Collaborators :=
  collaborators
    [ ("/blog/content/posts/january.md", january_text);
      ("/blog/content/posts/2024/february.md", february_text) ]
    [ (january_text, Return january); (february_text, Return february) ].

Definition two_documents_files : list string :=
  [ "/blog/content/posts/january.md"; "/blog/content/posts/2024/february.md" ].

(** What the build makes of the two documents. *)
Definition february_post : Build.PostData :=
  {| Build.slug := Str "february";
     Build.title := Str "February";
     Build.date := 1706745600000;
     Build.updated := None;
     Build.tags := [Str "Go"];
     Build.excerpt := Str "second post...";
     Build.html := "<p> # second *post* </p>" |}.

Definition january_post : Build.PostData :=
  {| Build.slug := Str "january";
     Build.title := Str "January";
     Build.date := 1704067200000;
     Build.updated := None;
     Build.tags := [Str "Go"];
     Build.excerpt := Str "first...";
     Build.html := "<p> first</p>" |}.

Definition two_documents_output : Build.OutputData :=
  {| Build.posts := [february_post; january_post];
     Build.tag_index := {[ "Go" := [Str "january"; Str "february"] ]};
     Build.generatedAt := 1750000000999 |}.

(** ** A content directory with a document tagged [constructor] *)

Definition tagged_constructor_text : string := "--- tags: [constructor] --- body".

Definition tagged_constructor : Build.GrayMatterFile :=
  {| Build.data := [ ("tags", Array [Str "constructor"]) ];
     Build.content := " body" |}.

Definition one_bad_document : Build.Collaborators :=
  collaborators
    [ ("/blog/content/posts/january.md", january_text);
      ("/blog/content/posts/oops.md", tagged_constructor_text) ]
    [ (january_text, Return january); (tagged_constructor_text, Return tagged_constructor) ].

Definition one_bad_document_files : list string :=
  [ "/blog/content/posts/january.md"; "/blog/content/posts/oops.md" ].

End Scenario.

(** * The built-ins on small inputs *)
Module JSExamples.
Import JS.

Example parseInt_decimal : parseInt "12" = Int 12.
Proof. reflexivity. Qed.

Example parseInt_prefix : parseInt "  -42px" = Int (-42).
Proof. reflexivity. Qed.

Example parseInt_hex : parseInt "0x1F" = Int 31.
Proof. reflexivity. Qed.

Example parseInt_letters : parseInt "abc" = NaN.
Proof. reflexivity. Qed.

Example parseInt_sign_only : parseInt "-" = NaN.
Proof. reflexivity. Qed.

Example slice_middle : slice [1; 2; 3; 4; 5] (Int 1) (Int 3) = [2; 3].
Proof. reflexivity. Qed.

Example slice_from_end : slice [1; 2; 3; 4; 5] (Int (-2)) (Int 10) = [4; 5].
Proof. reflexivity. Qed.

Example slice_NaN : slice [1; 2; 3] NaN NaN = [].
Proof. reflexivity. Qed.

Example slice_past_end : slice [1; 2; 3] (Int 10) (Int 20) = [].
Proof. reflexivity. Qed.

Example Math_ceil_11_10 : Math_ceil (div 11 10) = 2.
Proof. reflexivity. Qed.

Example Math_ceil_10_10 : Math_ceil (div 10 10) = 1.
Proof. reflexivity. Qed.

Example trim_both_ends : trim "  a b  " = "a b".
Proof. reflexivity. Qed.

Example sort_stable :
  sort (fun a b : Z * string => fst b - fst a) [(1, "a"); (2, "b"); (1, "c"); (2, "d")]
  = [(2, "b"); (2, "d"); (1, "a"); (1, "c")].
Proof. reflexivity. Qed.

Example Get_inherited : Get (∅ : gmap string (list string)) "toString" = Inherited.
Proof. reflexivity. Qed.

Example Get_missing : Get (∅ : gmap string (list string)) "Go" = Missing.
Proof. reflexivity. Qed.

Example auto_excerpt_strips : Build.auto_excerpt " # second *post* " = "second post...".
Proof. reflexivity. Qed.

End JSExamples.

(** * Properties of the serving layer *)
Module IndexSpec.
Import JS Index.

(** ** Built-ins *)

Lemma Math_ceil_div_bounds (a b : Z) :
  0 < b -> (Math_ceil (div a b) - 1) * b < a <= Math_ceil (div a b) * b.
Proof.
  intros Hb. unfold Math_ceil, div, Qceiling, Qfloor, Qdiv, Qmult, Qinv, Qopp, inject_Z.
  destruct b as [|b|b]; try lia. cbn.
  rewrite Z.mul_1_r, Pos.mul_1_l.
  pose proof (Z.div_mod (- a) (Z.pos b) ltac:(lia)) as Hdm.
  pose proof (Z.mod_pos_bound (- a) (Z.pos b) ltac:(lia)) as Hm.
  nia.
Qed.

(** With bounds [0 <= start <= end], [slice] drops [start] elements and keeps
    the next [end - start]. *)
Lemma slice_nonneg {A} (l : list A) (start end_ : Z) :
  0 <= start -> start <= end_ ->
  slice l (Int start) (Int end_) = take (Z.to_nat (end_ - start)) (drop (Z.to_nat start) l).
Proof.
  intros Hs He. unfold slice, relative_index. cbn [ToIntegerOrInfinity].
  destruct (Z.ltb_spec start 0); [lia|].
  destruct (Z.ltb_spec end_ 0); [lia|].
  set (len := Z.of_nat (length l)).
  destruct (Z.le_gt_cases len start) as [Hge|Hlt].
  - rewrite !drop_ge by lia. by rewrite !take_nil.
  - rewrite (Z.min_l start len) by lia.
    destruct (Z.le_gt_cases end_ len) as [Hle|Hgt].
    + rewrite Z.min_l by lia. f_equal. lia.
    + rewrite Z.min_r by lia. rewrite Z.max_l by lia.
      rewrite !take_ge; [done| |]; rewrite length_drop; lia.
Qed.

(** An end bound of [0] leaves nothing, wherever the slice starts. *)
Lemma slice_end_zero {A} (l : list A) (start : num) : slice l start (Int 0) = [].
Proof.
  unfold slice. set (k := relative_index _ start).
  assert (0 <= k).
  { unfold k, relative_index. destruct (Z.ltb_spec (ToIntegerOrInfinity start) 0); lia. }
  assert (Hfinal : relative_index (Z.of_nat (length l)) (Int 0) = 0).
  { unfold relative_index. cbn [ToIntegerOrInfinity]. change (0 <? 0) with false.
    cbn match. lia. }
  rewrite Hfinal. replace (Z.max (0 - k) 0) with 0 by lia. apply take_0.
Qed.

Lemma find_first_match {A} (p : A -> bool) (l : list A) (x : A) :
  x ∈ l -> p x = true -> exists y, find p l = Some y /\ y ∈ l /\ p y = true.
Proof.
  intros Hin Hp. unfold find.
  destruct (List.find p l) as [y|] eqn:Hfind.
  - apply find_some in Hfind as [Hy Hpy]. exists y. rewrite list_elem_of_In. auto.
  - apply list_elem_of_In in Hin. pose proof (find_none _ _ Hfind _ Hin). congruence.
Qed.

Lemma find_no_match {A} (p : A -> bool) (l : list A) :
  (forall x, x ∈ l -> p x = false) -> find p l = None.
Proof.
  intros Hall. unfold find. induction l as [|a l IH]; [done|].
  cbn. rewrite Hall by left. apply IH. intros x Hx. apply Hall. by right.
Qed.

(** Among records with pairwise distinct keys, the key determines the record. *)
Lemma NoDup_key_inj {A K} (key : A -> K) (l : list A) (x y : A) :
  NoDup (key <$> l) -> x ∈ l -> y ∈ l -> key x = key y -> x = y.
Proof.
  induction l as [|a l IH]; intros Hnd Hx Hy Hk; [by apply elem_of_nil in Hx|].
  rewrite fmap_cons in Hnd. apply NoDup_cons in Hnd as [Hnotin Hnd].
  apply elem_of_cons in Hx as [->|Hx]; apply elem_of_cons in Hy as [->|Hy]; auto.
  - exfalso. apply Hnotin. rewrite Hk. by apply list_elem_of_fmap_2.
  - exfalso. apply Hnotin. rewrite <- Hk. by apply list_elem_of_fmap_2.
Qed.

(** ** The loader *)

Lemma sample_usable (ctx : Context) : as_BlogData (SAMPLE_BLOG_DATA ctx) = Some (sample ctx).
Proof. reflexivity. Qed.

(** C1 (as amended): [loadBlogData] returns in every context.  In a Node.js
    development context in which [fs] and [path] are imported, the artifact
    file exists, is read and parses, it returns the value that [JSON.parse]
    made of the file's text, as it is.  In every other case (no Node.js, no
    development flag, [fs] or [path] not imported, file missing, file
    unreadable, text that does not parse) it returns the sample artifact.
    The sample artifact is usable as a [BlogData]; so the result is usable
    whenever every text that parses does so to a value of that shape. *)
Theorem loadBlogData_degrades_to_sample (ctx : Context) :
  exists v,
    loadBlogData ctx = Return v /\
    (forall fsm pm text parsed,
       isNodeJS ctx = true -> is_development ctx = true ->
       fs ctx = Some fsm -> path ctx = Some pm ->
       existsSync fsm (artifact_path ctx pm) = true ->
       readFileSync fsm (artifact_path ctx pm) = Return text ->
       JSON_parse ctx text = Return parsed ->
       v = parsed) /\
    (isNodeJS ctx = false -> v = SAMPLE_BLOG_DATA ctx) /\
    (is_development ctx = false -> v = SAMPLE_BLOG_DATA ctx) /\
    (fs ctx = None -> v = SAMPLE_BLOG_DATA ctx) /\
    (path ctx = None -> v = SAMPLE_BLOG_DATA ctx) /\
    (forall fsm pm, fs ctx = Some fsm -> path ctx = Some pm ->
       existsSync fsm (artifact_path ctx pm) = false -> v = SAMPLE_BLOG_DATA ctx) /\
    (forall fsm pm e, fs ctx = Some fsm -> path ctx = Some pm ->
       readFileSync fsm (artifact_path ctx pm) = Throw e -> v = SAMPLE_BLOG_DATA ctx) /\
    (forall fsm pm text e, fs ctx = Some fsm -> path ctx = Some pm ->
       readFileSync fsm (artifact_path ctx pm) = Return text ->
       JSON_parse ctx text = Throw e -> v = SAMPLE_BLOG_DATA ctx) /\
    (v = SAMPLE_BLOG_DATA ctx \/
     exists fsm pm text,
       isNodeJS ctx = true /\ is_development ctx = true /\
       fs ctx = Some fsm /\ path ctx = Some pm /\
       existsSync fsm (artifact_path ctx pm) = true /\
       readFileSync fsm (artifact_path ctx pm) = Return text /\
       JSON_parse ctx text = Return v) /\
    usable (SAMPLE_BLOG_DATA ctx) /\
    ((forall text parsed, JSON_parse ctx text = Return parsed -> usable parsed) -> usable v).
Proof.
  assert (Hs : usable (SAMPLE_BLOG_DATA ctx)) by (exists (sample ctx); apply sample_usable).
  unfold loadBlogData.
  destruct (isNodeJS ctx) eqn:Hnode, (is_development ctx) eqn:Hdev,
    (fs ctx) as [fsm|] eqn:Hfs; cbn [andb bool_decide];
    try (rewrite bool_decide_eq_false_2 by (intros [? ?]; discriminate));
    try (rewrite bool_decide_eq_true_2 by eauto);
    cbn [try_catch];
    try (exists (SAMPLE_BLOG_DATA ctx); repeat split; auto; intros; congruence).
  destruct (path ctx) as [pm|] eqn:Hpath; cbn [try_catch];
    [|exists (SAMPLE_BLOG_DATA ctx); repeat split; auto; intros; congruence].
  destruct (existsSync fsm (artifact_path ctx pm)) eqn:Hex; cbn [negb try_catch];
    [|exists (SAMPLE_BLOG_DATA ctx); repeat split; auto; intros; congruence].
  destruct (readFileSync fsm (artifact_path ctx pm)) as [text|e] eqn:Hread; cbn [bind try_catch];
    [|exists (SAMPLE_BLOG_DATA ctx); repeat split; auto; intros; congruence].
  destruct (JSON_parse ctx text) as [parsed|e] eqn:Hparse; cbn [try_catch];
    [|exists (SAMPLE_BLOG_DATA ctx); repeat split; auto; intros; congruence].
  exists parsed. repeat split; auto; try (intros; congruence).
  - right. exists fsm, pm, text. repeat split; assumption.
  - intros Hall. eauto.
Qed.

(** C1, a context in which the claim fails: the artifact file exists and
    holds the JSON text [null]; the loader returns [null], which is not a
    [BlogData]. *)
Lemma loadBlogData_returns_null :
  loadBlogData Scenario.null_artifact_context = Return Null /\ ~ usable Null.
Proof.
  split; [reflexivity|]. intros [b Hb]. discriminate.
Qed.

(** ** The listing *)

(** C2: for a page number [page >= 1], the listing holds exactly the posts
    at positions [start .. end - 1] of the collection, in order, where
    [start = (page - 1) * perPage] and [end = start + perPage]; [totalPages]
    is the least integer with [totalPosts <= totalPages * perPage], that is
    [ceil(totalPosts / perPage)]; and the listing is empty, with status 200,
    when [start >= totalPosts]. *)
Theorem route_home_page (blogData : BlogData.t) (c : Request) (page : Z) :
  parseInt (string_or (query_page c) "1") = Int page ->
  1 <= page ->
  let posts := BlogData.posts blogData in
  let totalPosts := Z.of_nat (length posts) in
  let start := (page - 1) * perPage in
  let end_ := start + perPage in
  exists paginatedPosts totalPages,
    route_home blogData c
      = Return (html (Listing (blogTitle_of c) paginatedPosts (Int page) totalPages)) /\
    (forall i : nat,
        paginatedPosts !! i
        = if decide (start + Z.of_nat i < end_)
          then posts !! (Z.to_nat start + i)%nat else None) /\
    (totalPages - 1) * perPage < totalPosts <= totalPages * perPage /\
    (totalPosts <= start -> paginatedPosts = []).
Proof.
  intros Hpage Hge posts totalPosts start end_.
  eexists _, _. split; [|split; [|split]].
  - unfold route_home. rewrite Hpage. cbn [page_bounds num_sub num_mul num_add try_catch].
    reflexivity.
  - intros i. fold posts start end_.
    rewrite slice_nonneg by (unfold perPage in *; lia).
    replace (start + perPage - start) with perPage by lia.
    case_decide as Hi.
    + rewrite lookup_take_lt by (unfold end_, perPage in *; lia).
      by rewrite lookup_drop.
    + apply lookup_take_ge. unfold end_, perPage in *; lia.
  - apply Math_ceil_div_bounds. done.
  - intros Hout. fold posts start.
    rewrite slice_nonneg by (unfold perPage in *; lia).
    rewrite drop_ge by (unfold totalPosts in Hout; lia). apply take_nil.
Qed.

(** [route_home_page] at the second page of the sample artifact. *)
Lemma route_home_page_witness :
  exists paginatedPosts totalPages,
    route_home (sample Scenario.workers_context) (Scenario.request (Some "2") "")
      = Return (html (Listing "Tech Blog" paginatedPosts (Int 2) totalPages)) /\
    paginatedPosts = [].
Proof.
  destruct (route_home_page (sample Scenario.workers_context)
              (Scenario.request (Some "2") "") 2 eq_refl ltac:(lia))
    as (pp & tp & Hroute & _ & _ & Hempty).
  exists pp, tp. split; [exact Hroute|]. apply Hempty. vm_compute. discriminate.
Defined.

(** C3, the code at a page parameter that is not a number: [parseInt("abc")]
    is [NaN], both slice bounds are [NaN], and the listing is empty, whereas
    [page=1] lists the first [perPage] posts. *)
Theorem route_home_page_abc (blogData : BlogData.t) (param : string) (title : option string) :
  let c q := {| query_page := q; param := param; BLOG_TITLE := title |} in
  let totalPages := Math_ceil (div (Z.of_nat (length (BlogData.posts blogData))) perPage) in
  parseInt "abc" = NaN /\
  route_home blogData (c (Some "abc"))
    = Return (html (Listing (string_or title "Tech Blog") [] NaN totalPages)) /\
  route_home blogData (c (Some "1"))
    = Return (html (Listing (string_or title "Tech Blog")
                      (take 10 (BlogData.posts blogData)) (Int 1) totalPages)).
Proof.
  intros c totalPages. split; [reflexivity|]. split.
  - unfold route_home, c, blogTitle_of. cbn [query_page BLOG_TITLE string_or truthy].
    change (parseInt _) with NaN.
    cbn [page_bounds num_sub num_mul num_add try_catch].
    unfold slice, relative_index. cbn [ToIntegerOrInfinity].
    change (0 <? 0) with false. cbn match. rewrite Z.sub_diag. reflexivity.
  - unfold route_home, c, blogTitle_of. cbn [query_page BLOG_TITLE string_or truthy].
    change (parseInt _) with (Int 1).
    cbn [page_bounds num_sub num_mul num_add try_catch].
    change ((1 - 1) * perPage) with 0. change (0 + perPage) with 10.
    rewrite slice_nonneg by lia. reflexivity.
Qed.

(** C10: when the page number is 0 the bounds are [start = -perPage] and
    [end = 0]; the slice of any collection over these bounds is empty, so the
    listing is empty, although [start < totalPosts]. *)
Theorem route_home_page_zero (blogData : BlogData.t) (c : Request) :
  parseInt (string_or (query_page c) "1") = Int 0 ->
  let posts := BlogData.posts blogData in
  page_bounds (Int 0) = (Int (- perPage), Int 0) /\
  slice posts (Int (- perPage)) (Int 0) = [] /\
  - perPage < Z.of_nat (length posts) /\
  exists totalPages,
    route_home blogData c = Return (html (Listing (blogTitle_of c) [] (Int 0) totalPages)).
Proof.
  intros Hpage posts.
  split; [reflexivity|]. split; [apply slice_end_zero|]. split; [unfold perPage; lia|].
  eexists. unfold route_home. rewrite Hpage.
  cbn [page_bounds num_sub num_mul num_add try_catch].
  change ((0 - 1) * perPage) with (- perPage). change (- perPage + perPage) with 0.
  rewrite slice_end_zero. reflexivity.
Qed.

(** [route_home_page_zero] at [page=0] on the sample artifact. *)
Lemma route_home_page_zero_witness :
  exists totalPages,
    route_home (sample Scenario.workers_context) (Scenario.request (Some "0") "")
      = Return (html (Listing "Tech Blog" [] (Int 0) totalPages)).
Proof.
  exact (proj2 (proj2 (proj2
    (route_home_page_zero (sample Scenario.workers_context)
       (Scenario.request (Some "0") "") eq_refl)))).
Defined.

(** ** Lookup by slug *)

(** C4: the slug handler never throws.  When a post with slug [s] is in the
    artifact the response is the detail page of a post with that slug, which
    is the one post with that slug when slugs are unique; when no post has
    slug [s] the response is the not-found page with status 404. *)
Theorem route_slug_lookup (blogData : BlogData.t) (c : Request) :
  let s := param c in
  let posts := BlogData.posts blogData in
  (exists r, route_slug blogData c = Return r) /\
  (forall p, p ∈ posts -> Post.slug p = s ->
     exists q,
       route_slug blogData c = Return (html (PostDetail (blogTitle_of c) q)) /\
       q ∈ posts /\ Post.slug q = s /\
       (NoDup (Post.slug <$> posts) -> q = p)) /\
  ((forall p, p ∈ posts -> Post.slug p <> s) ->
     route_slug blogData c = Return (html_status (PostNotFound (blogTitle_of c)) 404)).
Proof.
  intros s posts. unfold route_slug. fold s posts.
  split; [|split].
  - destruct (find _ posts); cbn [try_catch]; eauto.
  - intros p Hp Hs.
    destruct (find_first_match (fun p => String.eqb (Post.slug p) s) posts p Hp)
      as (q & Hfind & Hq & Hqs).
    { by apply String.eqb_eq. }
    apply String.eqb_eq in Hqs.
    exists q. rewrite Hfind. cbn [try_catch]. repeat split; auto.
    intros Hnd. apply (NoDup_key_inj Post.slug posts); congruence.
  - intros Hnone. rewrite find_no_match; [reflexivity|].
    intros p Hp. apply String.eqb_neq. by apply Hnone.
Qed.

(** ** Lookup by tag *)

(** For a tag that is not the name of a member of [Object.prototype], the tag
    handler lists nothing when the index has no entry for the tag, and
    otherwise the posts that the slugs of the entry resolve to, in the order
    of the entry, leaving out the slugs that resolve to no post. *)
Lemma route_tag_lookup (blogData : BlogData.t) (c : Request) :
  in_Object_prototype (param c) = false ->
  route_tag blogData c
  = Return (html (TagListing (blogTitle_of c) (param c)
                    (omap (fun slug =>
                             find (fun post => String.eqb (Post.slug post) slug)
                               (BlogData.posts blogData))
                          (default [] (BlogData.tags blogData !! param c))))).
Proof.
  intros Hproto. unfold route_tag, Get. rewrite Hproto.
  destruct (BlogData.tags blogData !! param c); reflexivity.
Qed.

(** C5, the code at a tag that is absent from the index and names a member of
    [Object.prototype]: the lookup yields the inherited member, [.map] on it
    raises, and the response is the error page with status 500, not an
    empty listing. *)
Theorem route_tag_constructor (ctx : Context) (title : option string) :
  let c := {| query_page := None; param := "constructor"; BLOG_TITLE := title |} in
  BlogData.tags (sample ctx) !! "constructor" = None /\
  route_tag (sample ctx) c
  = Return (html_status
              (ErrorPage "An error occurred while loading tag data."
                 "taggedSlugs.map is not a function")
              500).
Proof. split; reflexivity. Qed.

End IndexSpec.

(** * Properties of the build script *)
Module BuildSpec.
Import JS Build.

(** ** The sort *)

Lemma insert_sorted_Permutation {A} (comparefn : A -> A -> Z) (x : A) (l : list A) :
  insert_sorted comparefn x l ≡ₚ x :: l.
Proof.
  induction l as [|y l IH]; cbn; [done|].
  destruct (comparefn x y <=? 0); [done|].
  rewrite IH. apply Permutation_swap.
Qed.

Lemma sort_Permutation {A} (comparefn : A -> A -> Z) (l : list A) :
  sort comparefn l ≡ₚ l.
Proof.
  induction l as [|x l IH]; cbn; [done|].
  rewrite insert_sorted_Permutation. by rewrite IH.
Qed.

Lemma insert_sorted_by_date (x : PostData) (l : list PostData) :
  StronglySorted not_newer l -> StronglySorted not_newer (insert_sorted by_date_desc x l).
Proof.
  induction 1 as [|y l Hsorted IH Hall]; cbn.
  - repeat constructor.
  - destruct (Z.leb_spec (by_date_desc x y) 0) as [Hle|Hgt]; unfold by_date_desc in *.
    + constructor; [by constructor|].
      constructor; [unfold not_newer; lia|].
      eapply Forall_impl; [exact Hall|]. unfold not_newer. intros z Hz. lia.
    + constructor; [exact IH|].
      rewrite insert_sorted_Permutation. constructor; [unfold not_newer; lia | exact Hall].
Qed.

Lemma sort_by_date_sorted (l : list PostData) :
  StronglySorted not_newer (sort by_date_desc l).
Proof.
  induction l as [|x l IH]; cbn; [constructor|]. by apply insert_sorted_by_date.
Qed.

Lemma StronglySorted_lookup {A} (R : A -> A -> Prop) (l : list A) (i j : nat) (x y : A) :
  StronglySorted R l -> (i < j)%nat -> l !! i = Some x -> l !! j = Some y -> R x y.
Proof.
  intros Hsorted. revert i j. induction Hsorted as [|a l Hsorted IH Hall]; intros i j Hij Hi Hj.
  - by rewrite lookup_nil in Hi.
  - destruct j as [|j]; [lia|]. cbn in Hj. destruct i as [|i]; cbn in Hi.
    + injection Hi as <-. rewrite Forall_forall in Hall. apply Hall.
      by eapply list_elem_of_lookup_2.
    + apply (IH i j); [lia | done | done].
Qed.

(** ** Loops *)

Lemma for_of_invariant {A St} (body : nat -> A -> St -> completion St)
    (P : St -> Prop) (l : list A) :
  (forall i x st st', x ∈ l -> P st -> body i x st = Return st' -> P st') ->
  forall i st st', P st -> for_of body i l st = Return st' -> P st'.
Proof.
  induction l as [|x l IH]; intros Hstep i st st' HP Hloop; cbn in Hloop.
  - by injection Hloop as <-.
  - destruct (body i x st) as [st1|e] eqn:Hbody; [|discriminate].
    eapply IH; [|eapply Hstep; [left|exact HP|exact Hbody]|exact Hloop].
    intros i' y s s' Hy. apply Hstep. by right.
Qed.

(** ** The tag index *)

Section Tags.
Variable lib : Collaborators.

Lemma add_tag_keeps slug tagMap tag tagMap' key (s : value) slugs :
  add_tag lib slug tagMap tag = Return tagMap' ->
  tagMap !! key = Some slugs -> s ∈ slugs ->
  exists slugs', tagMap' !! key = Some slugs' /\ s ∈ slugs'.
Proof.
  unfold add_tag, Get. intros Hadd Hkey Hs.
  destruct (decide (ToPropertyKey lib tag = key)) as [<-|Hne].
  - rewrite Hkey in Hadd. injection Hadd as <-.
    rewrite lookup_insert_eq. eexists; split; [done|]. apply elem_of_app. by left.
  - destruct (tagMap !! ToPropertyKey lib tag);
      [|destruct (in_Object_prototype _); [discriminate|]];
      injection Hadd as <-; rewrite lookup_insert_ne by done; eauto.
Qed.

Lemma add_tag_records slug tagMap tag tagMap' :
  add_tag lib slug tagMap tag = Return tagMap' ->
  exists slugs, tagMap' !! ToPropertyKey lib tag = Some slugs /\ slug ∈ slugs.
Proof.
  unfold add_tag, Get. intros Hadd.
  destruct (tagMap !! ToPropertyKey lib tag);
    [|destruct (in_Object_prototype _); [discriminate|]];
    injection Hadd as <-; rewrite lookup_insert_eq; eexists; split; try done.
  - apply elem_of_app. right. by left.
  - by left.
Qed.

Lemma add_tags_keeps slug tags tagMap tagMap' key (s : value) slugs :
  add_tags lib slug tagMap tags = Return tagMap' ->
  tagMap !! key = Some slugs -> s ∈ slugs ->
  exists slugs', tagMap' !! key = Some slugs' /\ s ∈ slugs'.
Proof.
  revert tagMap slugs. induction tags as [|tag tags IH]; intros tagMap slugs Hadd Hkey Hs; cbn in Hadd.
  - injection Hadd as <-. eauto.
  - destruct (add_tag lib slug tagMap tag) as [m1|e] eqn:H1; [|discriminate]. cbn in Hadd.
    destruct (add_tag_keeps _ _ _ _ _ _ _ H1 Hkey Hs) as (l1 & Hl1 & Hs1).
    eapply IH; eauto.
Qed.

Lemma add_tags_records slug tags tagMap tagMap' tag :
  add_tags lib slug tagMap tags = Return tagMap' -> tag ∈ tags ->
  exists slugs, tagMap' !! ToPropertyKey lib tag = Some slugs /\ slug ∈ slugs.
Proof.
  revert tagMap. induction tags as [|t tags IH]; intros tagMap Hadd Hin; cbn in Hadd.
  - by apply elem_of_nil in Hin.
  - destruct (add_tag lib slug tagMap t) as [m1|e] eqn:H1; [|discriminate]. cbn in Hadd.
    apply elem_of_cons in Hin as [->|Hin]; [|by eapply IH].
    destruct (add_tag_records _ _ _ _ H1) as (l1 & Hl1 & Hs1).
    eapply add_tags_keeps; eauto.
Qed.

(** [add_tags] returns when no tag names a member of [Object.prototype]. *)
Lemma add_tags_returns slug tags tagMap :
  forallb (fun tag => negb (in_Object_prototype (ToPropertyKey lib tag))) tags = true ->
  exists tagMap', add_tags lib slug tagMap tags = Return tagMap'.
Proof.
  revert tagMap. induction tags as [|t tags IH]; intros tagMap Hall;
    cbn [forallb add_tags] in *; [eauto|].
  apply andb_true_iff in Hall as [Ht Hall]. apply negb_true_iff in Ht.
  unfold add_tag, Get. rewrite Ht.
  destruct (tagMap !! ToPropertyKey lib t); cbn [bind]; apply IH, Hall.
Qed.

(** Conversely, when the own keys of the index are not names of members of
    [Object.prototype], [add_tags] returns only if no tag is such a name, and
    the keys of the index it returns are again of that kind. *)
Lemma add_tags_returns_inv slug tags tagMap tagMap' :
  plain_keys tagMap ->
  add_tags lib slug tagMap tags = Return tagMap' ->
  forallb (fun tag => negb (in_Object_prototype (ToPropertyKey lib tag))) tags = true /\
  plain_keys tagMap'.
Proof.
  revert tagMap. induction tags as [|t tags IH]; intros tagMap Hplain Hadd;
    cbn [forallb add_tags] in *.
  - injection Hadd as <-. done.
  - destruct (add_tag lib slug tagMap t) as [m1|] eqn:H1; [|discriminate].
    cbn [bind] in Hadd.
    assert (Hkey : in_Object_prototype (ToPropertyKey lib t) = false).
    { unfold add_tag, Get in H1.
      destruct (tagMap !! ToPropertyKey lib t) eqn:Hl; [apply Hplain; eauto|].
      by destruct (in_Object_prototype _). }
    assert (Hplain1 : plain_keys m1).
    { intros key Hsome. unfold add_tag, Get in H1. rewrite Hkey in H1.
      destruct (decide (ToPropertyKey lib t = key)) as [<-|Hne]; [done|].
      apply Hplain.
      destruct (tagMap !! ToPropertyKey lib t); injection H1 as <-;
        by rewrite lookup_insert_ne in Hsome. }
    destruct (IH m1 Hplain1 Hadd) as [Hall Hplain']. rewrite Hkey, Hall. done.
Qed.

End Tags.

(** ** The loop *)

Section Loop.
Variable lib : Collaborators.

Lemma make_postData_returns i filePath file :
  valid_file lib file = true ->
  exists postData,
    make_postData lib i filePath file = Return postData /\
    tags postData = match get_own (data file) "tags" with
                    | Array elems => elems
                    | _ => []
                    end.
Proof.
  unfold valid_file, make_postData. intros Hvalid.
  apply andb_true_iff in Hvalid as [Hvalid _].
  apply andb_true_iff in Hvalid as [Hvalid Hupdated].
  apply andb_true_iff in Hvalid as [Hmarked Hdate].
  destruct (marked lib (content file)) as [htmlContent|]; [|discriminate]. cbn [bind].
  assert (Hd : exists d,
             (if truthy (get_own (data file) "date")
              then toISOString (newDate lib (get_own (data file) "date"))
              else toISOString (Int (now lib i))) = Return d).
  { destruct (truthy (get_own (data file) "date")); [|cbn; eauto].
    destruct (newDate lib _); [discriminate|cbn; eauto]. }
  destruct Hd as [d ->]. cbn [bind].
  destruct (truthy (get_own (data file) "updated")).
  - destruct (newDate lib (get_own (data file) "updated")); [discriminate|].
    cbn. eauto.
  - cbn. eauto.
Qed.

Lemma loop_body_returns i filePath (st : State) :
  valid_document lib filePath = true ->
  exists postData tagMap',
    loop_body lib i filePath st = Return (st.1 ++ [postData], tagMap').
Proof.
  unfold valid_document, loop_body. intros Hvalid. destruct st as [postsData tagMap].
  destruct (readFileSync lib filePath) as [fileContent|]; [|discriminate]. cbn [bind].
  destruct (matter lib fileContent) as [file|]; [|discriminate]. cbn [bind].
  destruct (make_postData_returns i filePath file Hvalid) as (postData & -> & Htags).
  cbn [bind].
  destruct (add_tags_returns lib (slug postData) (tags postData) tagMap) as [tagMap' ->].
  { rewrite Htags. unfold valid_file in Hvalid.
    apply andb_true_iff in Hvalid as [_ Hvalid].
    destruct (get_own (data file) "tags"); done. }
  cbn. eauto.
Qed.

Lemma loop_returns mdFiles i (st : State) :
  valid_content_directory lib mdFiles = true ->
  exists st', for_of (loop_body lib) i mdFiles st = Return st' /\
              length st'.1 = (length st.1 + length mdFiles)%nat.
Proof.
  revert i st. induction mdFiles as [|filePath mdFiles IH]; intros i st Hvalid; cbn in *.
  - exists st. split; [done|lia].
  - apply andb_true_iff in Hvalid as [Hfile Hvalid].
    destruct (loop_body_returns i filePath st Hfile) as (postData & tagMap' & ->).
    destruct (IH (S i) (st.1 ++ [postData], tagMap') Hvalid) as (st' & -> & Hlen).
    exists st'. split; [done|]. rewrite Hlen. cbn. rewrite length_app. cbn. lia.
Qed.

(** The loop appends, for each document in turn, the record built from it. *)
Lemma loop_records mdFiles i (st st' : State) :
  for_of (loop_body lib) i mdFiles st = Return st' ->
  exists records, st'.1 = st.1 ++ records /\ Forall2 (built_from lib) mdFiles records.
Proof.
  revert i st. induction mdFiles as [|filePath mdFiles IH]; intros i st Hloop;
    cbn [for_of] in Hloop.
  - injection Hloop as <-. exists []. rewrite app_nil_r. split; [done|constructor].
  - destruct (loop_body lib i filePath st) as [st1|] eqn:Hbody; [|discriminate].
    destruct (IH _ _ Hloop) as (records & Hst' & Hall).
    unfold loop_body in Hbody. destruct st as [postsData tagMap].
    destruct (readFileSync lib filePath) as [fileContent|] eqn:Hread; [|discriminate].
    cbn [bind] in Hbody.
    destruct (matter lib fileContent) as [file|] eqn:Hmatter; [|discriminate].
    cbn [bind] in Hbody.
    destruct (make_postData lib i filePath file) as [postData|] eqn:Hmake; [|discriminate].
    cbn [bind] in Hbody.
    destruct (add_tags lib _ _ _); [|discriminate]. cbn [bind] in Hbody.
    injection Hbody as <-. cbn [fst] in *.
    exists (postData :: records). split.
    + rewrite Hst'. by rewrite <- app_assoc.
    + constructor; [|exact Hall]. exists i, fileContent, file. auto.
Qed.

Lemma loop_body_invariant mdFiles i filePath (st st' : State) :
  filePath ∈ mdFiles -> loop_invariant lib mdFiles st ->
  loop_body lib i filePath st = Return st' -> loop_invariant lib mdFiles st'.
Proof.
  intros Hin [Hfrom Hindex] Hbody. unfold loop_body in Hbody.
  destruct st as [postsData tagMap].
  destruct (readFileSync lib filePath) as [fileContent|] eqn:Hread; [|discriminate].
  cbn [bind] in Hbody.
  destruct (matter lib fileContent) as [file|] eqn:Hmatter; [|discriminate].
  cbn [bind] in Hbody.
  destruct (make_postData lib i filePath file) as [postData|] eqn:Hmake; [|discriminate].
  cbn [bind] in Hbody.
  destruct (add_tags lib (slug postData) tagMap (tags postData)) as [tagMap'|] eqn:Hadd;
    [|discriminate].
  cbn in Hbody. injection Hbody as <-. split; cbn [fst snd] in *.
  - intros p Hp. apply elem_of_app in Hp as [Hp|Hp]; [by apply Hfrom|].
    apply list_elem_of_singleton in Hp as ->.
    exists filePath. split; [done|]. exists i, fileContent, file. auto.
  - intros p tag Hp Htag. apply elem_of_app in Hp as [Hp|Hp].
    + destruct (Hindex p tag Hp Htag) as (slugs & Hslugs & Hs).
      eapply add_tags_keeps; eauto.
    + apply list_elem_of_singleton in Hp as ->.
      eapply add_tags_records; eauto.
Qed.

Lemma loop_establishes_invariant mdFiles (st : State) :
  for_of (loop_body lib) 0%nat mdFiles ([], ∅) = Return st -> loop_invariant lib mdFiles st.
Proof.
  apply (for_of_invariant (loop_body lib) (loop_invariant lib mdFiles)).
  - intros i x s s' Hx. by apply loop_body_invariant.
  - split; intros p; cbn; intros; by apply elem_of_nil in H.
Qed.

(** The loop returns only on a valid content directory. *)
Lemma loop_returns_inv mdFiles i (st st' : State) :
  plain_keys st.2 ->
  for_of (loop_body lib) i mdFiles st = Return st' ->
  valid_content_directory lib mdFiles = true.
Proof.
  revert i st. induction mdFiles as [|filePath mdFiles IH]; intros i st Hplain Hloop;
    cbn [for_of] in Hloop; [done|].
  destruct (loop_body lib i filePath st) as [st1|] eqn:Hbody; [|discriminate].
  unfold loop_body in Hbody. destruct st as [postsData tagMap]. cbn [snd] in Hplain.
  destruct (readFileSync lib filePath) as [fileContent|] eqn:Hread; [|discriminate].
  cbn [bind] in Hbody.
  destruct (matter lib fileContent) as [file|] eqn:Hmatter; [|discriminate].
  cbn [bind] in Hbody.
  destruct (make_postData lib i filePath file) as [postData|] eqn:Hmake; [|discriminate].
  cbn [bind] in Hbody.
  destruct (add_tags lib (slug postData) tagMap (tags postData)) as [tagMap'|] eqn:Hadd;
    [|discriminate].
  cbn [bind] in Hbody. injection Hbody as <-.
  destruct (add_tags_returns_inv lib _ _ _ _ Hplain Hadd) as [Htags Hplain'].
  unfold valid_content_directory. cbn [forallb].
  fold (valid_content_directory lib mdFiles).
  rewrite (IH (S i) (postsData ++ [postData], tagMap') Hplain' Hloop), andb_true_r.
  unfold valid_document. rewrite Hread, Hmatter.
  unfold valid_file. unfold make_postData in Hmake.
  destruct (marked lib (content file)); [|discriminate]. cbn [bind is_Return andb] in *.
  destruct (truthy (get_own (data file) "date")).
  - destruct (newDate lib (get_own (data file) "date")); [discriminate|].
    cbn [toISOString bind is_NaN negb andb] in *.
    destruct (truthy (get_own (data file) "updated")).
    + destruct (newDate lib (get_own (data file) "updated")); [discriminate|].
      cbn [toISOString bind is_NaN negb andb] in *. injection Hmake as <-.
      cbn [tags] in Htags. by destruct (get_own (data file) "tags").
    + cbn [bind] in Hmake. injection Hmake as <-.
      cbn [tags andb] in *. by destruct (get_own (data file) "tags").
  - cbn [toISOString bind andb] in *.
    destruct (truthy (get_own (data file) "updated")).
    + destruct (newDate lib (get_own (data file) "updated")); [discriminate|].
      cbn [toISOString bind is_NaN negb andb] in *. injection Hmake as <-.
      cbn [tags] in Htags. by destruct (get_own (data file) "tags").
    + cbn [bind] in Hmake. injection Hmake as <-.
      cbn [tags andb] in *. by destruct (get_own (data file) "tags").
Qed.

(** [build] returns exactly on the valid content directories. *)
Lemma build_returns_iff_valid mdFiles :
  is_Return (build lib mdFiles) = valid_content_directory lib mdFiles.
Proof.
  destruct (valid_content_directory lib mdFiles) eqn:Hvalid.
  - unfold build.
    destruct (loop_returns mdFiles 0%nat ([], ∅) Hvalid) as ([postsData tagMap] & -> & _).
    reflexivity.
  - unfold build.
    destruct (for_of (loop_body lib) 0%nat mdFiles ([], ∅)) as [[postsData tagMap]|] eqn:Hloop;
      [|reflexivity].
    apply loop_returns_inv in Hloop; [congruence|].
    intros key [x Hx]. cbn [snd] in Hx. by rewrite lookup_empty in Hx.
Qed.

(** [build] returns when the loop does, with the loop's records sorted. *)
Lemma build_inv mdFiles out :
  build lib mdFiles = Return out ->
  exists postsData,
    for_of (loop_body lib) 0%nat mdFiles ([], ∅) = Return (postsData, tag_index out) /\
    posts out = sort by_date_desc postsData.
Proof.
  unfold build. destruct (for_of _ _ _ _) as [[postsData tagMap]|]; [|discriminate].
  cbn. intros [= <-]. eauto.
Qed.

(** ** The artifact *)


(** C7: in an artifact that [build] produced, a post never comes before a
    post with a later date: the posts are in non-increasing order of date. *)
Theorem build_posts_sorted_by_date (mdFiles : list string) (out : OutputData) :
  build lib mdFiles = Return out ->
  forall (i j : nat) (p q : PostData),
    (i <= j)%nat -> posts out !! i = Some p -> posts out !! j = Some q ->
    date q <= date p.
Proof.
  intros Hbuild i j p q Hij Hp Hq.
  destruct (build_inv mdFiles out Hbuild) as (postsData & _ & Hposts).
  destruct (decide (i = j)) as [->|Hne].
  - rewrite Hp in Hq. injection Hq as <-. lia.
  - eapply (StronglySorted_lookup not_newer (posts out) i j p q); try done; [|lia].
    rewrite Hposts. apply sort_by_date_sorted.
Qed.

(** C8: in an artifact that [build] produced, for every post and every tag
    in the post's tag list, the tag index has an entry under the tag and the
    entry contains the slug of the post. *)
Theorem build_tag_index_complete (mdFiles : list string) (out : OutputData) :
  build lib mdFiles = Return out ->
  forall (p : PostData) (tag : value),
    p ∈ posts out -> tag ∈ tags p ->
    exists slugs,
      Get (tag_index out) (ToPropertyKey lib tag) = Own slugs /\ slug p ∈ slugs.
Proof.
  intros Hbuild p tag Hp Htag.
  destruct (build_inv mdFiles out Hbuild) as (postsData & Hloop & Hposts).
  destruct (loop_establishes_invariant mdFiles _ Hloop) as [_ Hindex].
  rewrite Hposts, sort_Permutation in Hp.
  destruct (Hindex p tag Hp Htag) as (slugs & Hslugs & Hs). cbn [snd] in Hslugs.
  exists slugs. unfold Get. by rewrite Hslugs.
Qed.

Lemma make_postData_excerpt i filePath file postData :
  make_postData lib i filePath file = Return postData ->
  excerpt postData =
    if truthy (get_own (data file) "excerpt")
    then get_own (data file) "excerpt"
    else Str (trim (remove_chars is_markup (string_prefix 150 (content file))) +:+ "...").
Proof.
  unfold make_postData. intros Hmake.
  destruct (marked lib (content file)); [|discriminate]. cbn [bind] in Hmake.
  destruct (if truthy (get_own (data file) "date") then _ else _); [|discriminate].
  cbn [bind] in Hmake.
  destruct (if truthy (get_own (data file) "updated") then _ else _); [|discriminate].
  cbn [bind] in Hmake. injection Hmake as <-. reflexivity.
Qed.

(** C9 (as amended): the posts of the artifact are, up to their order, the
    records that the loop body builds from the documents, one for each
    document; and the excerpt of the record built from a document is the
    [excerpt] given in the document's front matter when that value is truthy
    (for a string: not empty), and otherwise the first 150 characters of the
    document's body with [#], [*] and the backquote removed and the white
    space at both ends trimmed, followed by three dots.  So every post of
    the artifact is the record of a document of the directory and has the
    excerpt that this document determines. *)
Theorem build_excerpt (mdFiles : list string) (out : OutputData) :
  build lib mdFiles = Return out ->
  let from_document_with_excerpt (filePath : string) (p : PostData) :=
    exists i fileContent file,
      readFileSync lib filePath = Return fileContent /\
      matter lib fileContent = Return file /\
      make_postData lib i filePath file = Return p /\
      excerpt p =
        if truthy (get_own (data file) "excerpt")
        then get_own (data file) "excerpt"
        else Str (trim (remove_chars is_markup (string_prefix 150 (content file))) +:+ "...") in
  (exists records,
      posts out ≡ₚ records /\ Forall2 from_document_with_excerpt mdFiles records) /\
  (forall p : PostData, p ∈ posts out ->
      exists filePath, filePath ∈ mdFiles /\ from_document_with_excerpt filePath p).
Proof.
  intros Hbuild from_document_with_excerpt.
  destruct (build_inv mdFiles out Hbuild) as (postsData & Hloop & Hposts).
  destruct (loop_records mdFiles _ _ _ Hloop) as (records & Hrecords & Hall).
  cbn [fst app] in Hrecords. subst postsData.
  assert (Hall' : Forall2 from_document_with_excerpt mdFiles records).
  { eapply Forall2_impl; [exact Hall|].
    intros filePath p (i & fileContent & file & Hread & Hmatter & Hmake).
    exists i, fileContent, file. repeat split; try done.
    by eapply make_postData_excerpt. }
  split.
  - exists records. split; [|exact Hall']. rewrite Hposts. apply sort_Permutation.
  - intros p Hp. rewrite Hposts, sort_Permutation in Hp.
    apply list_elem_of_lookup in Hp as [n Hn].
    destruct (Forall2_lookup_r _ _ _ _ _ Hall' Hn) as (filePath & Hfile & Hfrom).
    exists filePath. split; [by eapply list_elem_of_lookup_2|exact Hfrom].
Qed.

End Loop.

(** ** The two-document directory *)


(** The build of the two-document directory returns. *)
Lemma build_two_documents_returns :
  exists out, build Scenario.two_documents Scenario.two_documents_files = Return out.
Proof. vm_compute. eexists. reflexivity. Defined.

(** [build_posts_sorted_by_date] on the two-document directory: February
    comes first. *)
Lemma build_posts_sorted_by_date_witness :
  exists out p q,
    build Scenario.two_documents Scenario.two_documents_files = Return out /\
    posts out !! 0%nat = Some p /\ posts out !! 1%nat = Some q /\
    slug p = Str "february" /\ slug q = Str "january" /\
    date q <= date p.
Proof.
  destruct build_two_documents_returns as [out Hout].
  pose proof (build_posts_sorted_by_date Scenario.two_documents _ out Hout 0%nat 1%nat)
    as Hsorted.
  revert Hout Hsorted. vm_compute build. intros [= <-] Hsorted.
  eexists _, _, _. split; [reflexivity|].
  split; [reflexivity|]. split; [reflexivity|].
  split; [reflexivity|]. split; [reflexivity|].
  apply Hsorted; [lia|reflexivity|reflexivity].
Defined.

(** [build_tag_index_complete] on the two-document directory: the entry for
    [Go] holds the slug of the February post. *)
Lemma build_tag_index_complete_witness :
  exists out p slugs,
    build Scenario.two_documents Scenario.two_documents_files = Return out /\
    posts out !! 0%nat = Some p /\
    Get (tag_index out) "Go" = Own slugs /\ slug p ∈ slugs.
Proof.
  destruct build_two_documents_returns as [out Hout].
  destruct (posts out !! 0%nat) as [p|] eqn:Hp.
  - assert (Hin : p ∈ posts out) by (by eapply list_elem_of_lookup_2).
    assert (Htag : Str "Go" ∈ tags p).
    { revert Hout Hp. vm_compute build. intros [= <-] [= <-]. by left. }
    destruct (build_tag_index_complete Scenario.two_documents _ out Hout p (Str "Go") Hin Htag)
      as (slugs & Hget & Hslug).
    exists out, p, slugs. auto.
  - exfalso. revert Hout Hp. vm_compute build. intros [= <-]. discriminate.
Defined.

(** [build_excerpt] on the two-document directory. *)
Lemma build_excerpt_witness :
  exists out records,
    build Scenario.two_documents Scenario.two_documents_files = Return out /\
    posts out ≡ₚ records /\
    length records = 2%nat.
Proof.
  destruct build_two_documents_returns as [out Hout].
  destruct (build_excerpt Scenario.two_documents _ out Hout)
    as [(records & Hperm & Hall) _].
  exists out, records. split; [exact Hout|]. split; [exact Hperm|].
  by rewrite <- (Forall2_length _ _ _ Hall).
Defined.

(** C9, a document on which the claim fails: the February document gives the
    excerpt [""] in its front matter, and the post built from it has the
    excerpt derived from the body instead. *)
Lemma build_ignores_empty_excerpt :
  own_property (data Scenario.february) "excerpt" = Some (Str "") /\
  exists out p,
    build Scenario.two_documents Scenario.two_documents_files = Return out /\
    posts out !! 0%nat = Some p /\
    make_postData Scenario.two_documents 1%nat "/blog/content/posts/2024/february.md"
      Scenario.february = Return p /\
    excerpt p = Str "second post..." /\
    excerpt p <> Str "".
Proof.
  split; [reflexivity|]. eexists _, _.
  split; [vm_compute; reflexivity|]. split; [reflexivity|].
  split; [vm_compute; reflexivity|]. split; [reflexivity|]. discriminate.
Qed.

End BuildSpec.

(** * Further properties of the serving layer *)
Module IndexMore.
Import JS Index.

(** ** Numbers printed into links are read back by [parseInt] *)

Lemma digit_cases (d : Z) :
  0 <= d < 10 ->
  d = 0 \/ d = 1 \/ d = 2 \/ d = 3 \/ d = 4 \/ d = 5 \/ d = 6 \/ d = 7 \/ d = 8 \/ d = 9.
Proof. lia. Qed.

Lemma digit_value_digit_char (d : Z) : 0 <= d < 10 -> digit_value (digit_char d) = Some d.
Proof.
  intros Hd. destruct (digit_cases d Hd) as [->|[->|[->|[->|[->|[->|[->|[->|[->| ->]]]]]]]]];
    reflexivity.
Qed.

Lemma radix_digits_string_of_digits (ds : list Z) :
  Forall (fun d => 0 <= d < 10) ds -> radix_digits 10 (string_of_digits ds) = ds.
Proof.
  induction 1 as [|d ds Hd _ IH]; cbn [string_of_digits fold_right radix_digits]; [done|].
  rewrite digit_value_digit_char by done.
  destruct (Z.ltb_spec d 10); [|lia]. fold (string_of_digits ds). by rewrite IH.
Qed.

Lemma decimal_digits_spec (fuel : nat) (n : Z) (acc : list Z) :
  0 <= n < 2 ^ Z.of_nat fuel -> (0 < fuel)%nat ->
  Forall (fun d => 0 <= d < 10) acc ->
  Forall (fun d => 0 <= d < 10) (decimal_digits fuel n acc) /\
  decimal_digits fuel n acc <> [] /\
  fold_left (fun a d => a * 10 + d) (decimal_digits fuel n acc) 0
  = fold_left (fun a d => a * 10 + d) acc n.
Proof.
  revert n acc. induction fuel as [|fuel IH]; intros n acc Hn Hfuel Hacc; [lia|].
  cbn [decimal_digits]. destruct (Z.ltb_spec n 10) as [Hlt|Hge].
  - split; [constructor; [lia|done]|]. split; [done|]. cbn. done.
  - assert (Hdiv : 0 <= n / 10 < 2 ^ Z.of_nat fuel).
    { rewrite Nat2Z.inj_succ, Z.pow_succ_r in Hn by lia.
      split; [apply Z.div_pos; lia|].
      apply Z.div_lt_upper_bound; lia. }
    assert (Hfuel' : (0 < fuel)%nat).
    { destruct fuel; [|lia]. cbn in Hdiv.
      assert (1 <= n / 10) by (apply Z.div_le_lower_bound; lia). lia. }
    assert (Hmod : 0 <= n mod 10 < 10) by (apply Z.mod_pos_bound; lia).
    destruct (IH (n / 10) (n mod 10 :: acc) Hdiv Hfuel') as (Hall & Hne & Hval).
    { by constructor. }
    split; [done|]. split; [done|]. rewrite Hval. cbn [fold_left].
    f_equal. pose proof (Z.div_mod n 10). lia.
Qed.

Lemma decimal_spec (n : Z) :
  0 <= n ->
  exists d ds,
    decimal n = String (digit_char d) (string_of_digits ds) /\
    Forall (fun d => 0 <= d < 10) (d :: ds) /\
    digits_value 10 (d :: ds) = n.
Proof.
  intros Hn. unfold decimal.
  destruct (decimal_digits_spec (S (Z.to_nat (Z.log2 n))) n []) as (Hall & Hne & Hval).
  - split; [done|]. destruct (decide (n = 0)) as [->|Hpos]; [done|].
    rewrite Nat2Z.inj_succ, Z2Nat.id by apply Z.log2_nonneg.
    apply Z.log2_spec. lia.
  - lia.
  - constructor.
  - destruct (decimal_digits _ n []) as [|d ds]; [done|].
    exists d, ds. split; [done|]. split; [done|]. exact Hval.
Qed.

(** What [parseInt] does once the white space and the sign are gone. *)
Lemma digits_after_sign (sign d : Z) (ds : list Z) (str0 : string) :
  Forall (fun d => 0 <= d < 10) (d :: ds) ->
  str0 = String (digit_char d) (string_of_digits ds) ->
  (let '(R, str) :=
     match str0 with
     | String "0" (String "x" rest) => (16, rest)
     | String "0" (String "X" rest) => (16, rest)
     | _ => (10, str0)
     end in
   match radix_digits R str with
   | [] => NaN
   | ds' => Int (sign * digits_value R ds')
   end) = Int (sign * digits_value 10 (d :: ds)).
Proof.
  intros Hall ->.
  pose proof (radix_digits_string_of_digits (d :: ds) Hall) as Hradix.
  cbn [string_of_digits fold_right] in Hradix. fold (string_of_digits ds) in Hradix.
  apply Forall_cons in Hall as [Hd Hds].
  assert (Hprefix :
            match String (digit_char d) (string_of_digits ds) with
            | String "0" (String "x" rest) => (16, rest)
            | String "0" (String "X" rest) => (16, rest)
            | _ => (10, String (digit_char d) (string_of_digits ds))
            end = (10, String (digit_char d) (string_of_digits ds))).
  { destruct (digit_cases d Hd) as [->|[->|[->|[->|[->|[->|[->|[->|[->| ->]]]]]]]]];
      try reflexivity.
    change (digit_char 0) with "0"%char.
    destruct ds as [|d' ds']; [reflexivity|].
    apply Forall_cons in Hds as [Hd' _]. cbn [string_of_digits fold_right].
    destruct (digit_cases d' Hd') as [->|[->|[->|[->|[->|[->|[->|[->|[->| ->]]]]]]]]];
      reflexivity. }
  rewrite Hprefix, Hradix. reflexivity.
Qed.

Lemma parseInt_digits (d : Z) (ds : list Z) :
  Forall (fun d => 0 <= d < 10) (d :: ds) ->
  parseInt (String (digit_char d) (string_of_digits ds)) = Int (digits_value 10 (d :: ds)).
Proof.
  intros Hall. rewrite <- (Z.mul_1_l (digits_value 10 (d :: ds))).
  rewrite <- (digits_after_sign 1 d ds _ Hall eq_refl).
  apply Forall_cons in Hall as [Hd _].
  destruct (digit_cases d Hd) as [->|[->|[->|[->|[->|[->|[->|[->|[->| ->]]]]]]]]];
    reflexivity.
Qed.

(** [parseInt] reads the decimal numeral of a natural number back. *)
Lemma parseInt_reads_decimal (n : Z) : 0 <= n -> parseInt (decimal n) = Int n.
Proof.
  intros Hn. destruct (decimal_spec n Hn) as (d & ds & -> & Hall & Hval).
  by rewrite parseInt_digits, Hval.
Qed.



Lemma decimal_nonempty (n : Z) : 0 <= n -> decimal n <> EmptyString.
Proof. intros Hn. by destruct (decimal_spec n Hn) as (d & ds & -> & _). Qed.



(** ** The listing *)

(** Whatever the [page] parameter is, the listing route answers with status
    200 and shows at most [perPage] posts, which are consecutive posts of the
    artifact in the artifact's order. *)
Theorem route_home_always_lists_a_run (blogData : BlogData.t) (c : Request) :
  exists blogTitle page totalPages (k m : nat),
    route_home blogData c
      = Return (html (Listing blogTitle (take m (drop k (BlogData.posts blogData)))
                        page totalPages)) /\
    (m <= 10)%nat.
Proof.
  unfold route_home. set (page := parseInt _).
  destruct (page_bounds page) as [start end_] eqn:Hb. cbn [try_catch].
  eexists _, _, _, _, _. split; [unfold slice; reflexivity|].
  unfold page_bounds in Hb. injection Hb as <- <-.
  set (len := Z.of_nat (length (BlogData.posts blogData))).
  assert (0 <= len) by (unfold len; lia).
  destruct page as [|p]; cbn [num_sub num_mul num_add]; unfold relative_index;
    cbn [ToIntegerOrInfinity].
  - change (0 <? 0) with false. cbn match. lia.
  - unfold perPage.
    destruct (Z.ltb_spec ((p - 1) * 10) 0), (Z.ltb_spec ((p - 1) * 10 + 10) 0); lia.
Qed.

(** A missing [page] parameter and an empty one are both read as page 1:
    the listing shows the first [perPage] posts. *)
Theorem route_home_default_page (blogData : BlogData.t) (param : string)
    (title : option string) :
  let c q := {| query_page := q; param := param; BLOG_TITLE := title |} in
  route_home blogData (c None) = route_home blogData (c (Some "1")) /\
  route_home blogData (c (Some "")) = route_home blogData (c (Some "1")) /\
  listed_posts (route_home blogData (c None)) = take 10 (BlogData.posts blogData).
Proof.
  intros c. split; [reflexivity|]. split; [reflexivity|].
  unfold route_home, c. cbn [query_page string_or].
  change (parseInt "1") with (Int 1).
  cbn [page_bounds num_sub num_mul num_add try_catch listed_posts html body].
  change ((1 - 1) * perPage) with 0. change (0 + perPage) with 10.
  rewrite IndexSpec.slice_nonneg by lia. reflexivity.
Qed.

Lemma concat_pages {A} (l : list A) (k : nat) :
  concat ((fun i : nat => take 10 (drop (i * 10) l)) <$> seq 0 k) = take (k * 10) l.
Proof.
  induction k as [|k IH]; [by rewrite take_0|].
  rewrite seq_S, fmap_app, concat_app, IH. cbn [fmap list_fmap concat plus].
  rewrite app_nil_r, take_take_drop. f_equal. lia.
Qed.

(** The pages 1 to [totalPages], requested one after the other as
    [?page=1], [?page=2], ..., show every post of the artifact exactly once
    and in the artifact's order. *)
Theorem pages_partition_the_posts (blogData : BlogData.t) (param : string)
    (title : option string) :
  let posts := BlogData.posts blogData in
  let totalPages := Math_ceil (div (Z.of_nat (length posts)) perPage) in
  let c (page : Z) :=
    {| query_page := Some (decimal page); param := param; BLOG_TITLE := title |} in
  concat ((fun page => listed_posts (route_home blogData (c page))) <$> seqZ 1 totalPages)
  = posts.
Proof.
  intros posts totalPages c.
  pose proof (IndexSpec.Math_ceil_div_bounds (Z.of_nat (length posts)) perPage eq_refl)
    as Hceil. fold totalPages in Hceil. unfold perPage in Hceil.
  assert (Hpage : forall page : Z, 1 <= page ->
            listed_posts (route_home blogData (c page))
            = take 10 (drop (Z.to_nat (page - 1) * 10) posts)).
  { intros page Hp. unfold route_home, c. cbn [query_page string_or truthy].
    destruct (String.eqb_spec (decimal page) EmptyString) as [He|_];
      [by apply decimal_nonempty in He; [|lia]|].
    cbn [negb]. rewrite parseInt_reads_decimal by lia.
    cbn [page_bounds num_sub num_mul num_add try_catch listed_posts html body].
    rewrite IndexSpec.slice_nonneg by (unfold perPage; lia).
    fold posts. f_equal; [unfold perPage; lia|]. f_equal. unfold perPage. lia. }
  assert (Hnonneg : 0 <= totalPages) by lia.
  unfold seqZ. rewrite <- list_fmap_compose.
  rewrite (list_fmap_ext _ (fun i : nat => take 10 (drop (i * 10) posts)) (seq 0 (Z.to_nat totalPages))).
  - rewrite concat_pages. apply take_ge. lia.
  - intros i j Hj. unfold compose. rewrite Hpage by lia. do 3 f_equal. lia.
Qed.

(** On a page [1 <= page] the listing shows [min perPage (totalPosts - start)]
    posts when [start < totalPosts]: every page up to [totalPages] shows at
    least one post, and every page before the last shows [perPage]. *)
Theorem route_home_page_size (blogData : BlogData.t) (c : Request) (page : Z) :
  parseInt (string_or (query_page c) "1") = Int page ->
  1 <= page ->
  let totalPosts := Z.of_nat (length (BlogData.posts blogData)) in
  let totalPages := Math_ceil (div totalPosts perPage) in
  let shown := Z.of_nat (length (listed_posts (route_home blogData c))) in
  shown = Z.max 0 (Z.min perPage (totalPosts - (page - 1) * perPage)) /\
  (page <= totalPages -> 1 <= shown) /\
  (page < totalPages -> shown = perPage).
Proof.
  intros Hpage Hge totalPosts totalPages shown.
  pose proof (IndexSpec.Math_ceil_div_bounds totalPosts perPage eq_refl) as Hceil.
  fold totalPages in Hceil.
  assert (Hshown : shown = Z.max 0 (Z.min perPage (totalPosts - (page - 1) * perPage))).
  { unfold shown, route_home. rewrite Hpage.
    cbn [page_bounds num_sub num_mul num_add try_catch listed_posts html body].
    rewrite IndexSpec.slice_nonneg by (unfold perPage; lia).
    rewrite length_take, length_drop. unfold totalPosts, perPage. lia. }
  split; [exact Hshown|]. unfold perPage in *. split; intros; lia.
Qed.

(** [route_home_page_size] on the first page of the sample artifact. *)
Lemma route_home_page_size_witness :
  Z.of_nat (length (listed_posts (route_home (sample Scenario.workers_context)
                                    (Scenario.request (Some "1") "")))) = 1.
Proof.
  destruct (route_home_page_size (sample Scenario.workers_context)
              (Scenario.request (Some "1") "") 1 eq_refl ltac:(lia)) as [Hshown _].
  exact Hshown.
Defined.

(** A negative page number is not rejected: the slice bounds are negative and
    count from the end of the collection, so the listing shows the posts at
    positions [max (totalPosts + start) 0] up to [max (totalPosts + end) 0],
    which is a non-empty run when [totalPosts > -end]. *)
Theorem route_home_negative_page (blogData : BlogData.t) (c : Request) (page : Z) :
  parseInt (string_or (query_page c) "1") = Int page ->
  page < 0 ->
  let posts := BlogData.posts blogData in
  let totalPosts := Z.of_nat (length posts) in
  let start := (page - 1) * perPage in
  let end_ := start + perPage in
  let k := Z.max (totalPosts + start) 0 in
  let final := Z.max (totalPosts + end_) 0 in
  listed_posts (route_home blogData c)
    = take (Z.to_nat (final - k)) (drop (Z.to_nat k) posts) /\
  (- end_ < totalPosts -> listed_posts (route_home blogData c) <> []).
Proof.
  intros Hpage Hneg posts totalPosts start end_ k final.
  assert (Hlisted : listed_posts (route_home blogData c)
                    = take (Z.to_nat (final - k)) (drop (Z.to_nat k) posts)).
  { unfold route_home. rewrite Hpage.
    cbn [page_bounds num_sub num_mul num_add try_catch listed_posts html body].
    unfold slice, relative_index. cbn [ToIntegerOrInfinity].
    fold posts totalPosts start. fold end_.
    destruct (Z.ltb_spec start 0); [|unfold start, perPage in *; lia].
    destruct (Z.ltb_spec end_ 0); [|unfold end_, start, perPage in *; lia].
    fold k final. f_equal. unfold k, final, end_, perPage. lia. }
  split; [exact Hlisted|]. intros Hlong. rewrite Hlisted.
  intros Hnil. apply (f_equal length) in Hnil.
  rewrite length_take, length_drop in Hnil. cbn [length] in Hnil.
  unfold k, final, end_, start, totalPosts, perPage in *. lia.
Qed.

(** [route_home_negative_page] at [page=-1]. *)
Lemma route_home_negative_page_witness :
  listed_posts (route_home (sample Scenario.workers_context)
                  (Scenario.request (Some "-1") "")) = [].
Proof.
  destruct (route_home_negative_page (sample Scenario.workers_context)
              (Scenario.request (Some "-1") "") (-1) eq_refl ltac:(lia)) as [Hlisted _].
  exact Hlisted.
Defined.

(** ** The pagination links *)

(** On a page [1 <= page < 2^53] of an artifact with fewer than 2^32 posts,
    the link to the next page is rendered exactly when posts remain after the
    page ([page * perPage < totalPosts]), and the link to the previous page
    exactly when [page > 1] and the artifact has more than one page of posts;
    the links carry [page + 1] and [page - 1]. *)
Theorem pagination_links (totalPosts page : Z) :
  0 <= totalPosts < 2 ^ 32 -> 1 <= page < 2 ^ 53 ->
  let totalPages := Math_ceil (div totalPosts perPage) in
  let next := pagination_controls (Int page) totalPages ≫= next_link in
  let prev := pagination_controls (Int page) totalPages ≫= prev_link in
  next = (if decide (page * perPage < totalPosts)
          then Some (Exactly (Int (page + 1))) else None) /\
  prev = (if decide (1 < page /\ perPage < totalPosts)
          then Some (Exactly (Int (page - 1))) else None).
Proof.
  intros Hposts Hpage totalPages next prev.
  pose proof (IndexSpec.Math_ceil_div_bounds totalPosts perPage eq_refl) as Hceil.
  fold totalPages in Hceil. unfold perPage in *.
  assert (Hstep : forall delta, page_step (Int page) delta = Exactly (Int (page + delta))).
  { intros delta. unfold page_step. destruct (Z.ltb_spec (Z.abs page) (2 ^ 53)); [done|lia]. }
  unfold next, prev, pagination_controls.
  destruct (Z.ltb_spec 1 totalPages) as [Hmany|Hone];
    cbn [mbind option_bind next_link prev_link num_lt num_gt].
  - rewrite !Hstep.
    destruct (Z.ltb_spec page totalPages), (Z.ltb_spec 1 page);
      repeat case_decide; try done; lia.
  - repeat case_decide; try done; lia.
Qed.

(** [pagination_links] on the first page of 25 posts. *)
Lemma pagination_links_witness :
  pagination_controls (Int 1) (Math_ceil (div 25 perPage)) ≫= next_link
  = Some (Exactly (Int 2)).
Proof.
  exact (proj1 (pagination_links 25 1 ltac:(lia) ltac:(lia))).
Defined.

(** When the page parameter is not a number, the block shows neither link. *)
Theorem pagination_links_NaN (totalPages : Z) :
  pagination_controls NaN totalPages ≫= next_link = None /\
  pagination_controls NaN totalPages ≫= prev_link = None.
Proof. unfold pagination_controls. by destruct (1 <? totalPages). Qed.

(** ** The raw artifact endpoint *)

(** In every context the endpoint answers with status 200 and the very value
    that [loadBlogData] returns in that context. *)
Theorem route_blog_data_json_serves_loaded_data (ctx : Context) :
  exists v, loadBlogData ctx = Return v /\ route_blog_data_json ctx = Return (json v).
Proof.
  unfold loadBlogData, route_blog_data_json.
  destruct (isNodeJS ctx), (is_development ctx), (fs ctx) as [fsm|];
    cbn [andb]; try (rewrite bool_decide_eq_false_2 by (intros [? ?]; discriminate));
    try (rewrite bool_decide_eq_true_2 by eauto); cbn [try_catch]; eauto.
  destruct (path ctx) as [pm|]; cbn [bind try_catch]; eauto.
  destruct (existsSync fsm (artifact_path ctx pm)); cbn [negb try_catch]; eauto.
  destruct (readFileSync fsm (artifact_path ctx pm)) as [text|]; cbn [bind try_catch]; eauto.
  destruct (JSON_parse ctx text); cbn [bind try_catch]; eauto.
Qed.

(** ** Links from the listings to the posts *)

Lemma find_by_slug_self (posts : list Post.t) (s : string) (p : Post.t) :
  find (fun q => String.eqb (Post.slug q) s) posts = Some p ->
  find (fun q => String.eqb (Post.slug q) (Post.slug p)) posts = Some p.
Proof.
  intros Hfind. unfold find in *.
  destruct (find_some _ _ Hfind) as [_ Hs]. apply String.eqb_eq in Hs. by rewrite Hs.
Qed.

(** Every post that a tag page lists is served by the post route under its
    own slug: the link from the tag page leads to that very post. *)
Theorem tag_page_links_resolve (blogData : BlogData.t) (c : Request)
    (blogTitle tag : string) (taggedPosts : list Post.t) (p : Post.t) :
  route_tag blogData c = Return (html (TagListing blogTitle tag taggedPosts)) ->
  p ∈ taggedPosts ->
  route_slug blogData {| query_page := None; param := Post.slug p; BLOG_TITLE := BLOG_TITLE c |}
  = Return (html (PostDetail (blogTitle_of c) p)).
Proof.
  intros Hroute Hp.
  assert (Hfind : exists s,
             find (fun q => String.eqb (Post.slug q) s) (BlogData.posts blogData) = Some p).
  { unfold route_tag in Hroute.
    destruct (Get (BlogData.tags blogData) (param c)) as [slugs| |];
      cbn [bind try_catch] in Hroute; [| discriminate |];
      injection Hroute as _ _ <-; unfold map_filter_Boolean in Hp.
    - apply list_elem_of_omap in Hp as (s & _ & Hs). eauto.
    - by apply elem_of_nil in Hp. }
  destruct Hfind as [s Hfind]. apply find_by_slug_self in Hfind.
  unfold route_slug. cbn [param]. rewrite Hfind. reflexivity.
Qed.

(** [tag_page_links_resolve] for the sample post on the page of its tag. *)
Lemma tag_page_links_resolve_witness :
  route_slug (sample Scenario.workers_context) (Scenario.request None "hello-world")
  = Return (html (PostDetail "Tech Blog" Scenario.hello_world)).
Proof.
  exact (tag_page_links_resolve (sample Scenario.workers_context)
           (Scenario.request None "Sample") "Tech Blog" "Sample"
           [Scenario.hello_world] Scenario.hello_world eq_refl (list_elem_of_here _ _)).
Defined.

(** Every post that a listing page shows is served by the post route under
    its slug with status 200, whatever the page parameter was; the post served
    has that slug, and is the post shown when slugs are unique. *)
Theorem listing_links_resolve (blogData : BlogData.t) (c : Request) (p : Post.t) :
  p ∈ listed_posts (route_home blogData c) ->
  exists q,
    route_slug blogData
      {| query_page := None; param := Post.slug p; BLOG_TITLE := BLOG_TITLE c |}
    = Return (html (PostDetail (blogTitle_of c) q)) /\
    Post.slug q = Post.slug p /\
    (NoDup (Post.slug <$> BlogData.posts blogData) -> q = p).
Proof.
  intros Hp.
  assert (Hin : p ∈ BlogData.posts blogData).
  { destruct (route_home_always_lists_a_run blogData c)
      as (t & pg & tp & k & m & Hroute & _).
    rewrite Hroute in Hp. cbn [listed_posts html body] in Hp.
    by eapply subseteq_drop, subseteq_take. }
  destruct (IndexSpec.find_first_match
              (fun q => String.eqb (Post.slug q) (Post.slug p))
              (BlogData.posts blogData) p Hin (String.eqb_refl _))
    as (q & Hfind & Hq & Hqs).
  apply String.eqb_eq in Hqs.
  exists q. unfold route_slug. cbn [param]. rewrite Hfind.
  split; [reflexivity|]. split; [done|].
  intros Hnd. by apply (IndexSpec.NoDup_key_inj Post.slug (BlogData.posts blogData)).
Qed.

(** [listing_links_resolve] for the post on the first page of the sample. *)
Lemma listing_links_resolve_witness :
  exists q,
    route_slug (sample Scenario.workers_context) (Scenario.request None "hello-world")
    = Return (html (PostDetail "Tech Blog" q)) /\
    Post.slug q = "hello-world".
Proof.
  destruct (listing_links_resolve (sample Scenario.workers_context)
              (Scenario.request (Some "1") "") Scenario.hello_world
              (list_elem_of_here _ _))
    as (q & Hroute & Hslug & _).
  exists q. split; [exact Hroute|exact Hslug].
Defined.

(** When the index lists the slug of a post under a tag and slugs are
    unique, the page of the tag shows the post. *)
Theorem tag_page_shows_indexed_post (blogData : BlogData.t) (c : Request)
    (slugs : list string) (p : Post.t) :
  BlogData.tags blogData !! param c = Some slugs ->
  Post.slug p ∈ slugs ->
  p ∈ BlogData.posts blogData ->
  NoDup (Post.slug <$> BlogData.posts blogData) ->
  exists taggedPosts,
    route_tag blogData c = Return (html (TagListing (blogTitle_of c) (param c) taggedPosts)) /\
    p ∈ taggedPosts.
Proof.
  intros Hentry Hslug Hp Hnd. unfold route_tag, Get. rewrite Hentry. cbn [bind try_catch].
  eexists. split; [reflexivity|]. unfold map_filter_Boolean.
  apply list_elem_of_omap. exists (Post.slug p). split; [done|].
  destruct (IndexSpec.find_first_match
              (fun q => String.eqb (Post.slug q) (Post.slug p))
              (BlogData.posts blogData) p Hp (String.eqb_refl _))
    as (q & Hfind & Hq & Hqs).
  apply String.eqb_eq in Hqs. rewrite Hfind. f_equal.
  by apply (IndexSpec.NoDup_key_inj Post.slug (BlogData.posts blogData)).
Qed.

(** [tag_page_shows_indexed_post] for the sample post and its tag. *)
Lemma tag_page_shows_indexed_post_witness :
  exists taggedPosts,
    route_tag (sample Scenario.workers_context) (Scenario.request None "Sample")
    = Return (html (TagListing "Tech Blog" "Sample" taggedPosts)) /\
    Scenario.hello_world ∈ taggedPosts.
Proof.
  refine (tag_page_shows_indexed_post (sample Scenario.workers_context)
            (Scenario.request None "Sample") ["hello-world"] Scenario.hello_world
            eq_refl (list_elem_of_here _ _) (list_elem_of_here _ _) _).
  apply NoDup_singleton.
Defined.

(** ** The status of the tag route *)

Lemma omap_length_le {A B} (f : A -> option B) (l : list A) :
  (length (omap f l) <= length l)%nat.
Proof.
  induction l as [|x l IH]; cbn; [lia|]. destruct (f x); cbn; lia.
Qed.

(** The tag route never throws, and its status is 500 exactly when the tag is
    the name of a member of [Object.prototype] that is not an entry of the
    index; otherwise it is 200 and the page lists at most as many posts as
    the entry has slugs. *)
Theorem route_tag_status (blogData : BlogData.t) (c : Request) :
  exists r,
    route_tag blogData c = Return r /\
    (status r = 500 <->
       BlogData.tags blogData !! param c = None /\ in_Object_prototype (param c) = true) /\
    (status r = 200 \/ status r = 500) /\
    (forall blogTitle tag taggedPosts,
        body r = TagListing blogTitle tag taggedPosts ->
        (length taggedPosts
         <= length (default [] (BlogData.tags blogData !! param c)))%nat).
Proof.
  unfold route_tag, Get.
  destruct (BlogData.tags blogData !! param c) as [slugs|] eqn:Hl;
    [|destruct (in_Object_prototype (param c)) eqn:Hproto];
    cbn [bind try_catch]; eexists; (split; [reflexivity|]);
    cbn [status body html html_status default].
  - split; [split; [done|by intros [? _]]|]. split; [by left|].
    intros ? ? ? [= _ _ <-]. apply omap_length_le.
  - split; [done|]. split; [by right|]. intros ? ? ? [=].
  - split; [split; [done|by intros [_ ?]]|]. split; [by left|].
    intros ? ? ? [= _ _ <-]. cbn. lia.
Qed.

End IndexMore.

(** * Further properties of the build script *)
Module BuildMore.
Import JS Build.

(** ** The tag index, exactly *)

Section Index.
Variable lib : Collaborators.

(** What [add_tags] does to every entry of the index. *)
Lemma add_tags_lookup slug tags tagMap tagMap' key :
  add_tags lib slug tagMap tags = Return tagMap' ->
  tagMap' !! key
  = match (fun _ => slug) <$> List.filter (fun tag => String.eqb (ToPropertyKey lib tag) key) tags with
    | [] => tagMap !! key
    | added => Some (default [] (tagMap !! key) ++ added)
    end.
Proof.
  revert tagMap. induction tags as [|tag tags IH]; intros tagMap Hadd;
    cbn [add_tags] in Hadd.
  - injection Hadd as <-. reflexivity.
  - destruct (add_tag lib slug tagMap tag) as [m1|] eqn:H1; [|discriminate].
    cbn [bind] in Hadd. rewrite (IH m1 Hadd). cbn [List.filter].
    assert (Hm1 : m1 !! key
                  = if String.eqb (ToPropertyKey lib tag) key
                    then Some (default [] (tagMap !! key) ++ [slug])
                    else tagMap !! key).
    { unfold add_tag, Get in H1.
      destruct (String.eqb_spec (ToPropertyKey lib tag) key) as [<-|Hne].
      - destruct (tagMap !! ToPropertyKey lib tag);
          [|destruct (in_Object_prototype _); [discriminate|]];
          injection H1 as <-; by rewrite lookup_insert_eq.
      - destruct (tagMap !! ToPropertyKey lib tag);
          [|destruct (in_Object_prototype _); [discriminate|]];
          injection H1 as <-; by rewrite lookup_insert_ne. }
    rewrite Hm1.
    destruct (String.eqb (ToPropertyKey lib tag) key); cbn [fmap list_fmap default];
      [|reflexivity].
    destruct (List.filter _ tags) as [|v l]; [reflexivity|].
    rewrite fmap_cons. cbn [default id]. by rewrite <- app_assoc.
Qed.

Lemma slugs_under_snoc key records p :
  slugs_under lib key (records ++ [p])
  = slugs_under lib key records
    ++ ((fun _ => slug p) <$> List.filter (fun tag => String.eqb (ToPropertyKey lib tag) key) (tags p)).
Proof. unfold slugs_under. rewrite bind_app. cbn. by rewrite app_nil_r. Qed.

Lemma loop_body_index i filePath (st st' : State) :
  (forall key, st.2 !! key = index_entry lib key st.1) ->
  loop_body lib i filePath st = Return st' ->
  forall key, st'.2 !! key = index_entry lib key st'.1.
Proof.
  intros Hinv Hbody key. unfold loop_body in Hbody. destruct st as [postsData tagMap].
  destruct (readFileSync lib filePath); [|discriminate]. cbn [bind] in Hbody.
  destruct (matter lib _); [|discriminate]. cbn [bind] in Hbody.
  destruct (make_postData lib i filePath _) as [postData|]; [|discriminate].
  cbn [bind] in Hbody.
  destruct (add_tags lib _ _ _) as [tagMap'|] eqn:Hadd; [|discriminate].
  cbn [bind] in Hbody. injection Hbody as <-. cbn [fst snd] in *.
  rewrite (add_tags_lookup _ _ _ _ key Hadd), Hinv.
  unfold index_entry. rewrite slugs_under_snoc.
  destruct (slugs_under lib key postsData) as [|s0 rest]; cbn [default app];
    destruct (_ <$> List.filter _ (tags postData)); cbn [id app];
    rewrite ?app_nil_r; reflexivity.
Qed.

(** The artifact's index is determined by the records in the order in which
    the documents were processed: under each key it lists the slug of each
    record once per tag of the record with that key, in that order, and it
    has no entry for a key that no tag has.  The posts are these records
    sorted by date. *)
Theorem build_tag_index_exact (mdFiles : list string) (out : OutputData) :
  build lib mdFiles = Return out ->
  exists records,
    Forall2 (built_from lib) mdFiles records /\
    posts out = sort by_date_desc records /\
    forall key, tag_index out !! key = index_entry lib key records.
Proof.
  intros Hbuild.
  destruct (BuildSpec.build_inv lib mdFiles out Hbuild) as (postsData & Hloop & Hposts).
  destruct (BuildSpec.loop_records lib mdFiles _ _ _ Hloop) as (records & Hrecords & Hall).
  cbn [fst app] in Hrecords. subst postsData.
  exists records. split; [exact Hall|]. split; [exact Hposts|].
  refine (BuildSpec.for_of_invariant (loop_body lib)
            (fun st => forall key, st.2 !! key = index_entry lib key st.1)
            mdFiles _ 0%nat ([], ∅) (records, tag_index out) _ Hloop).
  - intros i x st st' _. apply loop_body_index.
  - intros key. cbn. apply lookup_empty.
Qed.

(** Nothing is in the index without reason: an entry is never empty, each
    slug in the entry under a key is the slug of a post of the artifact that
    has a tag with that key, and no key of the index is the name of a member
    of [Object.prototype]. *)
Theorem build_tag_index_sound (mdFiles : list string) (out : OutputData)
    (key : string) (slugs : list value) :
  build lib mdFiles = Return out ->
  tag_index out !! key = Some slugs ->
  slugs <> [] /\
  in_Object_prototype key = false /\
  forall s, s ∈ slugs ->
    exists p tag, p ∈ posts out /\ tag ∈ tags p /\ ToPropertyKey lib tag = key /\ slug p = s.
Proof.
  intros Hbuild Hkey.
  destruct (build_tag_index_exact mdFiles out Hbuild) as (records & _ & Hposts & Hindex).
  rewrite Hindex in Hkey. unfold index_entry in Hkey.
  assert (Hslugs : slugs = slugs_under lib key records /\ slugs <> []).
  { destruct (slugs_under lib key records); [discriminate|]. by injection Hkey as <-. }
  destruct Hslugs as [-> Hne]. split; [exact Hne|].
  assert (Hsound : forall s, s ∈ slugs_under lib key records ->
            exists p tag, p ∈ posts out /\ tag ∈ tags p /\
                          ToPropertyKey lib tag = key /\ slug p = s).
  { intros s Hs. unfold slugs_under in Hs.
    apply list_elem_of_bind in Hs as (p & Hs & Hp).
    apply list_elem_of_fmap in Hs as (tag & -> & Htag).
    apply list_elem_of_In, filter_In in Htag as [Htag Heq].
    apply String.eqb_eq in Heq. apply list_elem_of_In in Htag.
    exists p, tag. rewrite Hposts, BuildSpec.sort_Permutation. auto. }
  split; [|exact Hsound].
  destruct (BuildSpec.build_inv lib mdFiles out Hbuild) as (postsData & Hloop & _).
  refine (BuildSpec.for_of_invariant (loop_body lib) (fun st => plain_keys st.2) mdFiles
            _ 0%nat ([], ∅) (postsData, tag_index out) _ Hloop key _).
  3: { cbn [snd]. rewrite Hindex. unfold index_entry.
       destruct (slugs_under lib key records); [done|eauto]. }
  - intros i x st st' _ Hplain Hbody. unfold loop_body in Hbody.
    destruct st as [pd tm]. cbn [snd] in Hplain.
    destruct (readFileSync lib x); [|discriminate]. cbn [bind] in Hbody.
    destruct (matter lib _); [|discriminate]. cbn [bind] in Hbody.
    destruct (make_postData lib i x _) as [postData|]; [|discriminate].
    cbn [bind] in Hbody.
    destruct (add_tags lib _ _ _) as [tm'|] eqn:Hadd; [|discriminate].
    cbn [bind] in Hbody. injection Hbody as <-. cbn [snd].
    by destruct (BuildSpec.add_tags_returns_inv lib _ _ _ _ Hplain Hadd).
  - intros k [x Hx]. cbn [snd] in Hx. by rewrite lookup_empty in Hx.
Qed.

(** ** Posts with equal dates *)

Lemma insert_sorted_filter_date (d : Z) (x : PostData) (l : list PostData) :
  filter (fun p => date p = d) (insert_sorted by_date_desc x l)
  = filter (fun p => date p = d) (x :: l).
Proof.
  induction l as [|y l IH]; cbn [insert_sorted]; [done|].
  destruct (Z.leb_spec (by_date_desc x y) 0) as [Hle|Hgt]; [done|].
  unfold by_date_desc in Hgt.
  rewrite (filter_cons _ y), IH, !(filter_cons _ x), (filter_cons _ y).
  repeat case_decide; try done; lia.
Qed.

(** The sort keeps posts with the same date in the order in which their
    documents were processed. *)
Theorem build_keeps_order_of_equal_dates (mdFiles : list string) (out : OutputData) :
  build lib mdFiles = Return out ->
  exists records,
    Forall2 (built_from lib) mdFiles records /\
    forall d, filter (fun p => date p = d) (posts out) = filter (fun p => date p = d) records.
Proof.
  intros Hbuild.
  destruct (build_tag_index_exact mdFiles out Hbuild) as (records & Hall & Hposts & _).
  exists records. split; [exact Hall|]. intros d. rewrite Hposts. clear.
  induction records as [|x l IH]; [done|].
  cbn [sort foldr]. fold (sort by_date_desc l).
  rewrite insert_sorted_filter_date, !(filter_cons _ x), IH. done.
Qed.

(** ** Titles and excerpts *)

Lemma or_else_truthy (a b : value) : truthy b = true -> truthy (or_else a b) = true.
Proof. unfold or_else. by destruct (truthy a) eqn:Ha. Qed.

Lemma append_nonempty (s t : string) : t <> EmptyString -> s +:+ t <> EmptyString.
Proof. destruct s; [done|]. discriminate. Qed.

(** Every post of the artifact has a title and an excerpt that are truthy:
    a string among them is never empty. *)
Theorem build_title_and_excerpt_truthy (mdFiles : list string) (out : OutputData)
    (p : PostData) :
  build lib mdFiles = Return out -> p ∈ posts out ->
  truthy (title p) = true /\ truthy (excerpt p) = true.
Proof.
  intros Hbuild Hp.
  destruct (build_tag_index_exact mdFiles out Hbuild) as (records & Hall & Hposts & _).
  rewrite Hposts, BuildSpec.sort_Permutation in Hp.
  apply list_elem_of_lookup in Hp as [n Hn].
  destruct (Forall2_lookup_r _ _ _ _ _ Hall Hn) as (filePath & _ & i & text & file & _ & _ & Hmake).
  unfold make_postData in Hmake.
  destruct (marked lib (content file)); [|discriminate]. cbn [bind] in Hmake.
  destruct (if truthy (get_own (data file) "date") then _ else _); [|discriminate].
  cbn [bind] in Hmake.
  destruct (if truthy (get_own (data file) "updated") then _ else _); [|discriminate].
  cbn [bind] in Hmake. injection Hmake as <-. cbn [title excerpt].
  split; [by apply or_else_truthy|].
  apply or_else_truthy. cbn [truthy]. apply negb_true_iff, String.eqb_neq.
  by apply append_nonempty.
Qed.

(** ** When the build aborts *)

Lemma for_of_throws {A St} (body : nat -> A -> St -> completion St)
    (l : list A) (i : nat) (st : St) (e : Error) :
  for_of body i l st = Throw e ->
  exists j x st', x ∈ l /\ body j x st' = Throw e.
Proof.
  revert i st. induction l as [|x l IH]; intros i st Hloop; cbn [for_of] in Hloop;
    [discriminate|].
  destruct (body i x st) as [st1|e'] eqn:Hbody.
  - destruct (IH _ _ Hloop) as (j & y & st' & Hy & Hthrow).
    exists j, y, st'. split; [by right|done].
  - injection Hloop as <-. exists i, x, st. split; [by left|done].
Qed.

Lemma add_tags_throws slug tags tagMap e :
  add_tags lib slug tagMap tags = Throw e ->
  e = TypeError "tagMap[tag].push is not a function" /\
  exists tag, tag ∈ tags /\ in_Object_prototype (ToPropertyKey lib tag) = true.
Proof.
  revert tagMap. induction tags as [|tag tags IH]; intros tagMap Hadd;
    cbn [add_tags] in Hadd; [discriminate|].
  destruct (add_tag lib slug tagMap tag) as [m1|e'] eqn:H1; cbn [bind] in Hadd.
  - destruct (IH m1 Hadd) as (He & t & Ht & Hproto).
    split; [done|]. exists t. split; [by right|done].
  - injection Hadd as <-. unfold add_tag, Get in H1.
    destruct (tagMap !! ToPropertyKey lib tag); [discriminate|].
    destruct (in_Object_prototype (ToPropertyKey lib tag)) eqn:Hproto; [|discriminate].
    injection H1 as <-. split; [done|]. exists tag. split; [by left|done].
Qed.

(** When the build aborts, the error is that of one document of the
    directory: the document cannot be read, or its front matter does not
    parse, or it does not render (the error of the library is passed on
    unchanged), or one of its dates is invalid (a [RangeError]), or one of
    its tags is the name of a member of [Object.prototype] (a [TypeError]). *)
Theorem build_abort_causes (mdFiles : list string) (e : Error) :
  build lib mdFiles = Throw e ->
  exists filePath,
    filePath ∈ mdFiles /\
    (readFileSync lib filePath = Throw e \/
     exists fileContent,
       readFileSync lib filePath = Return fileContent /\
       (matter lib fileContent = Throw e \/
        exists file,
          matter lib fileContent = Return file /\
          (marked lib (content file) = Throw e \/
           (e = RangeError "Invalid time value" /\
            ((truthy (get_own (data file) "date") = true /\
              newDate lib (get_own (data file) "date") = NaN) \/
             (truthy (get_own (data file) "updated") = true /\
              newDate lib (get_own (data file) "updated") = NaN))) \/
           (e = TypeError "tagMap[tag].push is not a function" /\
            exists elems tag,
              get_own (data file) "tags" = Array elems /\ tag ∈ elems /\
              in_Object_prototype (ToPropertyKey lib tag) = true)))).
Proof.
  unfold build. intros Hbuild.
  destruct (for_of (loop_body lib) 0%nat mdFiles ([], ∅)) as [[pd tm]|e'] eqn:Hloop;
    [discriminate|].
  cbn [bind] in Hbuild. injection Hbuild as ->.
  destruct (for_of_throws _ _ _ _ _ Hloop) as (i & filePath & [pd tm] & Hin & Hbody).
  exists filePath. split; [exact Hin|]. unfold loop_body in Hbody.
  destruct (readFileSync lib filePath) as [fileContent|] eqn:Hread;
    cbn [bind] in Hbody; [|left; congruence].
  right. exists fileContent. split; [done|].
  destruct (matter lib fileContent) as [file|] eqn:Hmatter;
    cbn [bind] in Hbody; [|left; congruence].
  right. exists file. split; [done|].
  destruct (make_postData lib i filePath file) as [postData|] eqn:Hmake;
    cbn [bind] in Hbody.
  - destruct (add_tags lib (slug postData) tm (tags postData)) as [tm'|] eqn:Hadd;
      cbn [bind] in Hbody; [discriminate|]. injection Hbody as ->.
    destruct (add_tags_throws _ _ _ _ Hadd) as (-> & tag & Htag & Hproto).
    right. right. split; [done|].
    unfold make_postData in Hmake.
    destruct (marked lib (content file)); [|discriminate]. cbn [bind] in Hmake.
    destruct (if truthy (get_own (data file) "date") then _ else _); [|discriminate].
    cbn [bind] in Hmake.
    destruct (if truthy (get_own (data file) "updated") then _ else _); [|discriminate].
    cbn [bind] in Hmake. injection Hmake as <-. cbn [tags] in Htag.
    destruct (get_own (data file) "tags") as [| | | | | |elems|]; try by apply elem_of_nil in Htag.
    exists elems, tag. done.
  - injection Hbody as ->. unfold make_postData in Hmake.
    destruct (marked lib (content file)) eqn:Hmarked; cbn [bind] in Hmake;
      [|left; congruence].
    right. left.
    destruct (truthy (get_own (data file) "date")) eqn:Hdate.
    + destruct (newDate lib (get_own (data file) "date")) eqn:Hnew;
        cbn [toISOString bind] in Hmake.
      * injection Hmake as <-. split; [done|]. left. done.
      * destruct (truthy (get_own (data file) "updated")) eqn:Hupdated;
          [|discriminate].
        destruct (newDate lib (get_own (data file) "updated")) eqn:Hnew';
          cbn [toISOString bind] in Hmake; [|discriminate].
        injection Hmake as <-. split; [done|]. right. done.
    + cbn [toISOString bind] in Hmake.
      destruct (truthy (get_own (data file) "updated")) eqn:Hupdated; [|discriminate].
      destruct (newDate lib (get_own (data file) "updated")) eqn:Hnew';
        cbn [toISOString bind] in Hmake; [|discriminate].
      injection Hmake as <-. split; [done|]. right. done.
Qed.

End Index.

(** ** The derived excerpt *)

Lemma length_string_prefix (n : nat) (s : string) : (String.length (string_prefix n s) <= n)%nat.
Proof.
  revert s. induction n as [|n IH]; intros [|c s]; cbn; try lia.
  specialize (IH s). lia.
Qed.

Lemma length_remove_chars (f : ascii -> bool) (s : string) :
  (String.length (remove_chars f s) <= String.length s)%nat.
Proof. induction s as [|c s IH]; cbn; [lia|]. destruct (f c); cbn; lia. Qed.

Lemma length_trimStart (s : string) : (String.length (trimStart s) <= String.length s)%nat.
Proof.
  induction s as [|c s IH]; cbn [trimStart]; [lia|].
  destruct (is_StrWhiteSpaceChar c); cbn [String.length] in *; lia.
Qed.

Lemma length_trimEnd (s : string) : (String.length (trimEnd s) <= String.length s)%nat.
Proof.
  induction s as [|c s IH]; cbn [trimEnd]; [lia|].
  destruct (trimEnd s); [destruct (is_StrWhiteSpaceChar c)|]; cbn [String.length] in *; lia.
Qed.

Lemma chars_remove_chars (f : ascii -> bool) (s : string) :
  Forall (fun c => f c = false) (chars (remove_chars f s)).
Proof.
  induction s as [|c s IH]; cbn [remove_chars]; [constructor|].
  destruct (f c) eqn:Hc; [done|]. by constructor.
Qed.

Lemma chars_trimStart (P : ascii -> Prop) (s : string) :
  Forall P (chars s) -> Forall P (chars (trimStart s)).
Proof.
  induction s as [|c s IH]; cbn [trimStart]; [done|]. intros Hall.
  destruct (is_StrWhiteSpaceChar c); [|done]. apply IH. by inversion Hall.
Qed.

Lemma chars_trimEnd (P : ascii -> Prop) (s : string) :
  Forall P (chars s) -> Forall P (chars (trimEnd s)).
Proof.
  induction s as [|c s IH]; cbn [trimEnd]; [done|]. intros Hall.
  inversion Hall as [|? ? Hc Hs]; subst. specialize (IH Hs).
  destruct (trimEnd s); [destruct (is_StrWhiteSpaceChar c)|].
  - constructor.
  - by repeat constructor.
  - by constructor.
Qed.

Lemma trimEnd_idemp (s : string) : trimEnd (trimEnd s) = trimEnd s.
Proof.
  induction s as [|c s IH]; [done|]. cbn [trimEnd].
  destruct (trimEnd s) as [|a r] eqn:Hs.
  - destruct (is_StrWhiteSpaceChar c) eqn:Hc; [done|]. cbn [trimEnd]. by rewrite Hc.
  - cbn [trimEnd]. cbn [trimEnd] in IH. by rewrite IH.
Qed.

Lemma trimStart_starts_clean (s : string) : starts_clean (trimStart s).
Proof.
  induction s as [|c s IH]; cbn [trimStart]; [done|].
  by destruct (is_StrWhiteSpaceChar c) eqn:Hc.
Qed.

Lemma trimStart_trimEnd (s : string) : starts_clean s -> trimStart (trimEnd s) = trimEnd s.
Proof.
  destruct s as [|c s]; [done|]. cbn [starts_clean trimEnd]. intros Hc.
  destruct (trimEnd s); rewrite ?Hc; cbn [trimStart]; by rewrite Hc.
Qed.

Lemma trim_idemp (s : string) : trim (trim s) = trim s.
Proof.
  unfold trim. rewrite trimStart_trimEnd by apply trimStart_starts_clean.
  apply trimEnd_idemp.
Qed.

Lemma length_append (s t : string) :
  String.length (s +:+ t) = (String.length s + String.length t)%nat.
Proof.
  induction s as [|c s IH]; [reflexivity|].
  change (String c s +:+ t) with (String c (s +:+ t)). cbn [String.length]. by rewrite IH.
Qed.

(** The derived excerpt is a text followed by three dots; the text has at
    most 150 code units, none of them [#], [*] or a backquote, and no white
    space at either end.  So the excerpt has at most 153 code units. *)
Theorem auto_excerpt_shape (content : string) :
  exists text,
    auto_excerpt content = text +:+ "..." /\
    (String.length text <= 150)%nat /\
    Forall (fun c => is_markup c = false) (chars text) /\
    trim text = text /\
    (String.length (auto_excerpt content) <= 153)%nat.
Proof.
  exists (trim (remove_chars is_markup (string_prefix 150 content))).
  assert (Hlen : (String.length (trim (remove_chars is_markup (string_prefix 150 content)))
                  <= 150)%nat).
  { unfold trim.
    pose proof (length_trimEnd (trimStart (remove_chars is_markup (string_prefix 150 content)))).
    pose proof (length_trimStart (remove_chars is_markup (string_prefix 150 content))).
    pose proof (length_remove_chars is_markup (string_prefix 150 content)).
    pose proof (length_string_prefix 150 content). lia. }
  split; [reflexivity|]. split; [exact Hlen|]. split; [|split].
  - unfold trim. apply chars_trimEnd, chars_trimStart, chars_remove_chars.
  - apply trim_idemp.
  - unfold auto_excerpt. rewrite length_append. cbn [String.length]. lia.
Qed.

(** ** The two-document directory and the directory with a bad document *)

Lemma build_two_documents :
  build Scenario.two_documents Scenario.two_documents_files
  = Return Scenario.two_documents_output.
Proof. vm_compute. reflexivity. Defined.

(** [build_tag_index_exact] on the two-document directory. *)
Lemma build_tag_index_exact_witness :
  exists records,
    Forall2 (built_from Scenario.two_documents) Scenario.two_documents_files records /\
    posts Scenario.two_documents_output = sort by_date_desc records /\
    forall key,
      tag_index Scenario.two_documents_output !! key
      = index_entry Scenario.two_documents key records.
Proof.
  exact (build_tag_index_exact Scenario.two_documents Scenario.two_documents_files
           Scenario.two_documents_output build_two_documents).
Defined.

(** [build_tag_index_sound] on the entry for [Go]. *)
Lemma build_tag_index_sound_witness :
  in_Object_prototype "Go" = false /\
  forall s, s ∈ [Str "january"; Str "february"] ->
    exists p tag,
      p ∈ posts Scenario.two_documents_output /\ tag ∈ tags p /\
      ToPropertyKey Scenario.two_documents tag = "Go" /\ slug p = s.
Proof.
  exact (proj2 (build_tag_index_sound Scenario.two_documents Scenario.two_documents_files
                  Scenario.two_documents_output "Go" [Str "january"; Str "february"]
                  build_two_documents eq_refl)).
Defined.

(** [build_keeps_order_of_equal_dates] on the two-document directory. *)
Lemma build_keeps_order_of_equal_dates_witness :
  exists records,
    Forall2 (built_from Scenario.two_documents) Scenario.two_documents_files records /\
    forall d,
      filter (fun p => date p = d) (posts Scenario.two_documents_output)
      = filter (fun p => date p = d) records.
Proof.
  exact (build_keeps_order_of_equal_dates Scenario.two_documents
           Scenario.two_documents_files Scenario.two_documents_output build_two_documents).
Defined.

(** [build_title_and_excerpt_truthy] on the February post. *)
Lemma build_title_and_excerpt_truthy_witness :
  truthy (title Scenario.february_post) = true /\
  truthy (excerpt Scenario.february_post) = true.
Proof.
  exact (build_title_and_excerpt_truthy Scenario.two_documents Scenario.two_documents_files
           Scenario.two_documents_output Scenario.february_post
           build_two_documents (list_elem_of_here _ _)).
Defined.

Lemma build_one_bad_document :
  build Scenario.one_bad_document Scenario.one_bad_document_files
  = Throw (TypeError "tagMap[tag].push is not a function").
Proof. vm_compute. reflexivity. Defined.

(** [build_abort_causes] on the directory with the document tagged
    [constructor]. *)
Lemma build_abort_causes_witness :
  exists filePath, filePath ∈ Scenario.one_bad_document_files.
Proof.
  destruct (build_abort_causes Scenario.one_bad_document Scenario.one_bad_document_files
              _ build_one_bad_document) as (filePath & Hin & _).
  exists filePath. exact Hin.
Defined.

End BuildMore.
